(** * DebInstaller: a shallow embedding of the package-install controller

    The development follows [debinstaller.h] / [debinstaller.cpp]:

    - [QStr]   : the [QString] operations the controller calls;
    - [Dbl]    : the C++ [double] (IEEE 754 binary64) and [QString::number];
    - [Deb]    : the [DebInstaller] object, its private helpers, its slots,
                 and the events the Qt event loop delivers to it.

    Qt, dpkg and libapt are not part of the repository.  What they answer is
    collected in the record [Deb.Env]; what they do to the object (buffers of
    the child process, the future watched by the [QFutureWatcher]) is part of
    the object state. *)

From Stdlib Require Import ZArith List String Ascii Bool Lia.
From Stdlib Require Import DecimalString.
From Stdlib Require Import Floats.SpecFloat.
Import ListNotations.

Open Scope string_scope.
Open Scope Z_scope.

(* ================================================================== *)
(** ** QString *)
(* ================================================================== *)

(** A [QString] is taken as the sequence of its code units, restricted to
    the 8-bit range; the bytes a process prints are taken as such a string. *)
Module QStr.

(** [QString::isEmpty] *)
Definition isEmpty (s : string) : bool :=
  match s with
  | EmptyString => true
  | String _ _ => false
  end.

(** [startsWith]: [p] is a prefix of [s]. *)
Fixpoint startsWith (p s : string) : bool :=
  match p with
  | EmptyString => true
  | String a p' =>
      match s with
      | EmptyString => false
      | String b s' => Ascii.eqb a b && startsWith p' s'
      end
  end.

(** Drop the first [n] characters. *)
Fixpoint skip (n : nat) (s : string) : string :=
  match n with
  | O => s
  | S n' =>
      match s with
      | EmptyString => EmptyString
      | String _ s' => skip n' s'
      end
  end.

(** [QString::remove(const QString &)]: every occurrence of [needle] is
    removed in one pass from left to right; an empty needle removes nothing.
    [k] counts the characters of the current occurrence still to delete. *)
Fixpoint removeFrom (needle : string) (k : nat) (s : string) : string :=
  match s with
  | EmptyString => EmptyString
  | String c s' =>
      match k with
      | S k' => removeFrom needle k' s'
      | O =>
          if negb (isEmpty needle) && startsWith needle s
          then removeFrom needle (Nat.pred (String.length needle)) s'
          else String c (removeFrom needle O s')
      end
  end.

Definition remove (needle s : string) : string := removeFrom needle O s.

(** [QString::contains(needle, Qt::CaseSensitive)] *)
Fixpoint contains (needle s : string) : bool :=
  startsWith needle s
  || match s with
     | EmptyString => false
     | String _ s' => contains needle s'
     end.

(** ASCII lower case, the folding that matters for the keywords the
    controller looks for. *)
Definition toLowerChar (c : ascii) : ascii :=
  let n := nat_of_ascii c in
  if (Nat.leb 65 n && Nat.leb n 90)%bool then ascii_of_nat (n + 32) else c.

Fixpoint toLower (s : string) : string :=
  match s with
  | EmptyString => EmptyString
  | String c s' => String (toLowerChar c) (toLower s')
  end.

(** [QString::contains(needle, Qt::CaseInsensitive)] *)
Definition containsCI (needle s : string) : bool :=
  contains (toLower needle) (toLower s).

(** [QChar::isSpace] on the 8-bit range: TAB, LF, VT, FF, CR, space, and the
    two Latin-1 separators NEL (0x85) and NBSP (0xA0). *)
Definition isSpace (c : ascii) : bool :=
  let n := nat_of_ascii c in
  (Nat.eqb n 32 || (Nat.leb 9 n && Nat.leb n 13) || Nat.eqb n 133 || Nat.eqb n 160)%bool.

(** The class [\s] of the regular-expression engine (no Unicode
    properties): TAB, LF, VT, FF, CR and space. *)
Definition isRegexSpace (c : ascii) : bool :=
  let n := nat_of_ascii c in
  (Nat.eqb n 32 || (Nat.leb 9 n && Nat.leb n 13))%bool.

Definition newline : ascii := ascii_of_nat 10.

Fixpoint dropWhile (f : ascii -> bool) (s : string) : string :=
  match s with
  | EmptyString => EmptyString
  | String c s' => if f c then dropWhile f s' else s
  end.

Fixpoint takeWhile (f : ascii -> bool) (s : string) : string :=
  match s with
  | EmptyString => EmptyString
  | String c s' => if f c then String c (takeWhile f s') else EmptyString
  end.

(** Remove the characters satisfying [f] from the end. *)
Fixpoint dropWhileEnd (f : ascii -> bool) (s : string) : string :=
  match s with
  | EmptyString => EmptyString
  | String c s' =>
      let r := dropWhileEnd f s' in
      if isEmpty r && f c then EmptyString else String c r
  end.

(** [QString::trimmed]: white space removed from both ends. *)
Definition trimmed (s : string) : string :=
  dropWhileEnd isSpace (dropWhile isSpace s).

(** [QString::indexOf(QChar)], [None] standing for -1. *)
Fixpoint indexOf (c : ascii) (s : string) : option nat :=
  match s with
  | EmptyString => None
  | String d s' =>
      if Ascii.eqb c d then Some O
      else match indexOf c s' with
           | Some i => Some (S i)
           | None => None
           end
  end.

(** [QString::left(n)] *)
Fixpoint left (n : nat) (s : string) : string :=
  match n with
  | O => EmptyString
  | S n' =>
      match s with
      | EmptyString => EmptyString
      | String c s' => String c (left n' s')
      end
  end.

(** First and last character. *)
Definition first (s : string) : option ascii :=
  match s with
  | EmptyString => None
  | String c _ => Some c
  end.

Fixpoint last (s : string) : option ascii :=
  match s with
  | EmptyString => None
  | String c EmptyString => Some c
  | String _ s' => last s'
  end.

(** The character [c] occurs in [s]. *)
Fixpoint hasChar (c : ascii) (s : string) : bool :=
  match s with
  | EmptyString => false
  | String d s' => Ascii.eqb c d || hasChar c s'
  end.

(** ** The regular expression of [extractControlField]

    The pattern is the field name followed by a colon, by a greedy run of
    white space (the class written backslash-s, starred) and by one capture
    group holding a greedy run of dots.  It is searched anywhere in the
    subject.  The six field names the controller passes contain no
    metacharacter, so the name and the colon are matched literally.  After
    the leftmost occurrence of the name and colon, the white-space run takes
    every following white-space character (line feeds included) and the
    capture group takes everything up to the next line feed: the dot matches
    any character but LF.  Both runs can be empty, so the leftmost occurrence
    of the literal always yields the match, and no backtracking changes what
    group 1 holds.  The result is [captured(1)], or [None] when [hasMatch()]
    is false. *)
Fixpoint afterFirst (lit s : string) : option string :=
  if startsWith lit s then Some (skip (String.length lit) s)
  else match s with
       | EmptyString => None
       | String _ s' => afterFirst lit s'
       end.

Definition notNewline (c : ascii) : bool := negb (Ascii.eqb c newline).

Definition fieldCapture (fieldName subject : string) : option string :=
  match afterFirst (fieldName ++ ":") subject with
  | Some rest => Some (takeWhile notNewline (dropWhile isRegexSpace rest))
  | None => None
  end.

End QStr.

(* ================================================================== *)
(** ** double *)
(* ================================================================== *)

Module Dbl.

(** A C++ [double] is an IEEE 754 binary64 number: the floating-point
    specification of the standard library at precision 53 and maximal
    exponent 1024.  Finite values are kept in canonical form, which is what
    [SFcompare] expects; [ofZ] produces it. *)
Definition double : Type := spec_float.

Definition prec : Z := 53.
Definition emax : Z := 1024.

Definition ofZ (n : Z) : double := binary_normalize prec emax n 0 false.

Definition mul (x y : double) : double := SFmul prec emax x y.
Definition div (x y : double) : double := SFdiv prec emax x y.

(** [qAbs] *)
Definition qAbs (x : double) : double := SFabs x.

(** [x >= y]; false as soon as one side is NaN. *)
Definition geb (x y : double) : bool := SFleb y x.

(** *** [QString::number(double, 'f', precision)]

    Qt prints the exact binary value rounded to [precision] decimals, a tie
    going away from zero (the digit generator of its double-conversion
    library), with the sign in front; a zero of either sign is printed
    without a sign; a negative precision means 6.  NaN and the infinities
    are printed by name. *)
Definition decimal (n : Z) : string :=
  NilZero.string_of_uint (N.to_uint (Z.to_N n)).

Fixpoint zeros (n : nat) : string :=
  match n with
  | O => EmptyString
  | S n' => String "0" (zeros n')
  end.

Definition padLeft (width : nat) (s : string) : string :=
  zeros (width - String.length s) ++ s.

(** The magnitude [m * 2^e], times [10^p], rounded to the nearest integer. *)
Definition scaledRound (m : positive) (e : Z) (p : nat) : Z :=
  let t := Z.pos m * 10 ^ Z.of_nat p in
  if 0 <=? e then t * 2 ^ e
  else (2 * t + 2 ^ (- e)) / (2 * 2 ^ (- e)).

Definition fixedDigits (n : Z) (p : nat) : string :=
  let ip := n / 10 ^ Z.of_nat p in
  let fp := n mod 10 ^ Z.of_nat p in
  match p with
  | O => decimal ip
  | S _ => decimal ip ++ "." ++ padLeft p (decimal fp)
  end.

Definition signString (s : bool) : string := if s then "-" else "".

Definition number (x : double) (precision : Z) : string :=
  let p := if precision <? 0 then 6%nat else Z.to_nat precision in
  match x with
  | S754_nan => "nan"
  | S754_infinity s => signString s ++ "inf"
  | S754_zero _ => fixedDigits 0 p
  | S754_finite s m e => signString s ++ fixedDigits (scaledRound m e p) p
  end.

End Dbl.

(* ================================================================== *)
(** ** The DebInstaller object *)
(* ================================================================== *)

Module Deb.

(** [enum Status] of the header. *)
Inductive Status : Type := Begin | Installing | Error | Succeeded.

(** The signals of the header. *)
Inductive Signal : Type :=
| fileNameChanged | packageNameChanged | versionChanged | maintainerChanged
| descriptionChanged | isValidChanged | canInstallChanged | homePageChanged
| installedSizeChanged | installedVersionChanged | statusMessageChanged
| statusDetailsTextChanged | statusChanged | isInstalledChanged
| requestSwitchToInstallPage | preInstallMessageChanged.

(** [QProcess::ExitStatus] *)
Inductive ExitStatus : Type := NormalExit | CrashExit.

(** [QProcess::ProcessState], the starting phase merged into [Running]. *)
Inductive ProcessState : Type := NotRunning | Running.

(** The [QProcess] behind [m_installProcess]: its state and the data the
    child has written that no slot has read yet. *)
Record QProcess : Type := mkQProcess {
  processState : ProcessState;
  stdoutBuffer : string;
  stderrBuffer : string
}.

(** What [waitForFinished(5000)] observes of a helper command: it finished
    in time, with its standard output and exit code, or it did not (the 5
    seconds elapsed, or the program could not be started). *)
Inductive Outcome : Type :=
| Finished (standardOutput : string) (exitCode : Z)
| NotFinished.

(** An entry of the apt package cache: [CurrentState == Installed] and the
    version string of [CurrentVer()], when there is one. *)
Record Pkg : Type := mkPkg {
  currentStateInstalled : bool;
  currentVer : option string
}.

(** Everything the controller asks of Qt, dpkg and libapt.  [dpkg n args] is
    the outcome of the [n]-th helper run (counted from 0) when it is given
    [args], so that the same command may answer differently over time. *)
Record Env : Type := mkEnv {
  absoluteFilePath : string -> string;          (* QFileInfo *)
  mimeTypeForFile : string -> string;           (* QMimeDatabase *)
  dpkg : nat -> list string -> Outcome;         (* QProcess dpkg, 5 s *)
  toDouble : string -> option Dbl.double;       (* QString::toDouble, ok *)
  pkgInitConfig : bool;                         (* apt configuration *)
  cacheOpen : bool;                             (* pkgCacheFile::Open *)
  pkgCache : option (string -> option Pkg)      (* GetPkgCache, FindPkg *)
}.

(** The members of the class.  [m_cacheFile] lives in [Env];
    [m_controlFields] is never read or written.  [m_dependencyWatcher] is
    [None] for the null pointer and otherwise names the future the watcher
    was last given.  The last four fields are not members, they record what
    the object did to the outside: the signals emitted, the helper commands
    run by [runDpkgCommand], the tasks handed to [QtConcurrent::run] (with
    the result of those that have run), and the install children started. *)
Record DebInstaller : Type := mkDebInstaller {
  m_installProcess : QProcess;
  m_dependencyWatcher : option nat;
  m_isValid : bool;
  m_canInstall : bool;
  m_aptInitialized : bool;
  m_fileName : string;
  m_packageName : string;
  m_version : string;
  m_maintainer : string;
  m_description : string;
  m_homePage : string;
  m_installedSize : string;
  m_installedVersion : string;
  m_isInstalled : bool;
  m_statusMessage : string;
  m_statusDetails : string;
  m_preInstallMessage : string;
  m_status : Status;
  emitted : list Signal;
  dpkgRuns : list (list string);
  futures : list (option bool);
  spawned : list (list string)
}.

(** One setter per field. *)
Definition set_m_installProcess (v : QProcess) (s : DebInstaller) : DebInstaller :=
  {|
    m_installProcess := v; m_dependencyWatcher := m_dependencyWatcher s;
    m_isValid := m_isValid s; m_canInstall := m_canInstall s;
    m_aptInitialized := m_aptInitialized s; m_fileName := m_fileName s;
    m_packageName := m_packageName s; m_version := m_version s;
    m_maintainer := m_maintainer s; m_description := m_description s;
    m_homePage := m_homePage s; m_installedSize := m_installedSize s;
    m_installedVersion := m_installedVersion s;
    m_isInstalled := m_isInstalled s; m_statusMessage := m_statusMessage s;
    m_statusDetails := m_statusDetails s;
    m_preInstallMessage := m_preInstallMessage s; m_status := m_status s;
    emitted := emitted s; dpkgRuns := dpkgRuns s; futures := futures s;
    spawned := spawned s
  |}.

Definition set_m_dependencyWatcher (v : option nat) (s : DebInstaller) : DebInstaller :=
  {|
    m_installProcess := m_installProcess s; m_dependencyWatcher := v;
    m_isValid := m_isValid s; m_canInstall := m_canInstall s;
    m_aptInitialized := m_aptInitialized s; m_fileName := m_fileName s;
    m_packageName := m_packageName s; m_version := m_version s;
    m_maintainer := m_maintainer s; m_description := m_description s;
    m_homePage := m_homePage s; m_installedSize := m_installedSize s;
    m_installedVersion := m_installedVersion s;
    m_isInstalled := m_isInstalled s; m_statusMessage := m_statusMessage s;
    m_statusDetails := m_statusDetails s;
    m_preInstallMessage := m_preInstallMessage s; m_status := m_status s;
    emitted := emitted s; dpkgRuns := dpkgRuns s; futures := futures s;
    spawned := spawned s
  |}.

Definition set_m_isValid (v : bool) (s : DebInstaller) : DebInstaller :=
  {|
    m_installProcess := m_installProcess s;
    m_dependencyWatcher := m_dependencyWatcher s; m_isValid := v;
    m_canInstall := m_canInstall s; m_aptInitialized := m_aptInitialized s;
    m_fileName := m_fileName s; m_packageName := m_packageName s;
    m_version := m_version s; m_maintainer := m_maintainer s;
    m_description := m_description s; m_homePage := m_homePage s;
    m_installedSize := m_installedSize s;
    m_installedVersion := m_installedVersion s;
    m_isInstalled := m_isInstalled s; m_statusMessage := m_statusMessage s;
    m_statusDetails := m_statusDetails s;
    m_preInstallMessage := m_preInstallMessage s; m_status := m_status s;
    emitted := emitted s; dpkgRuns := dpkgRuns s; futures := futures s;
    spawned := spawned s
  |}.

Definition set_m_canInstall (v : bool) (s : DebInstaller) : DebInstaller :=
  {|
    m_installProcess := m_installProcess s;
    m_dependencyWatcher := m_dependencyWatcher s; m_isValid := m_isValid s;
    m_canInstall := v; m_aptInitialized := m_aptInitialized s;
    m_fileName := m_fileName s; m_packageName := m_packageName s;
    m_version := m_version s; m_maintainer := m_maintainer s;
    m_description := m_description s; m_homePage := m_homePage s;
    m_installedSize := m_installedSize s;
    m_installedVersion := m_installedVersion s;
    m_isInstalled := m_isInstalled s; m_statusMessage := m_statusMessage s;
    m_statusDetails := m_statusDetails s;
    m_preInstallMessage := m_preInstallMessage s; m_status := m_status s;
    emitted := emitted s; dpkgRuns := dpkgRuns s; futures := futures s;
    spawned := spawned s
  |}.

Definition set_m_aptInitialized (v : bool) (s : DebInstaller) : DebInstaller :=
  {|
    m_installProcess := m_installProcess s;
    m_dependencyWatcher := m_dependencyWatcher s; m_isValid := m_isValid s;
    m_canInstall := m_canInstall s; m_aptInitialized := v;
    m_fileName := m_fileName s; m_packageName := m_packageName s;
    m_version := m_version s; m_maintainer := m_maintainer s;
    m_description := m_description s; m_homePage := m_homePage s;
    m_installedSize := m_installedSize s;
    m_installedVersion := m_installedVersion s;
    m_isInstalled := m_isInstalled s; m_statusMessage := m_statusMessage s;
    m_statusDetails := m_statusDetails s;
    m_preInstallMessage := m_preInstallMessage s; m_status := m_status s;
    emitted := emitted s; dpkgRuns := dpkgRuns s; futures := futures s;
    spawned := spawned s
  |}.

Definition set_m_fileName (v : string) (s : DebInstaller) : DebInstaller :=
  {|
    m_installProcess := m_installProcess s;
    m_dependencyWatcher := m_dependencyWatcher s; m_isValid := m_isValid s;
    m_canInstall := m_canInstall s; m_aptInitialized := m_aptInitialized s;
    m_fileName := v; m_packageName := m_packageName s;
    m_version := m_version s; m_maintainer := m_maintainer s;
    m_description := m_description s; m_homePage := m_homePage s;
    m_installedSize := m_installedSize s;
    m_installedVersion := m_installedVersion s;
    m_isInstalled := m_isInstalled s; m_statusMessage := m_statusMessage s;
    m_statusDetails := m_statusDetails s;
    m_preInstallMessage := m_preInstallMessage s; m_status := m_status s;
    emitted := emitted s; dpkgRuns := dpkgRuns s; futures := futures s;
    spawned := spawned s
  |}.

Definition set_m_packageName (v : string) (s : DebInstaller) : DebInstaller :=
  {|
    m_installProcess := m_installProcess s;
    m_dependencyWatcher := m_dependencyWatcher s; m_isValid := m_isValid s;
    m_canInstall := m_canInstall s; m_aptInitialized := m_aptInitialized s;
    m_fileName := m_fileName s; m_packageName := v; m_version := m_version s;
    m_maintainer := m_maintainer s; m_description := m_description s;
    m_homePage := m_homePage s; m_installedSize := m_installedSize s;
    m_installedVersion := m_installedVersion s;
    m_isInstalled := m_isInstalled s; m_statusMessage := m_statusMessage s;
    m_statusDetails := m_statusDetails s;
    m_preInstallMessage := m_preInstallMessage s; m_status := m_status s;
    emitted := emitted s; dpkgRuns := dpkgRuns s; futures := futures s;
    spawned := spawned s
  |}.

Definition set_m_version (v : string) (s : DebInstaller) : DebInstaller :=
  {|
    m_installProcess := m_installProcess s;
    m_dependencyWatcher := m_dependencyWatcher s; m_isValid := m_isValid s;
    m_canInstall := m_canInstall s; m_aptInitialized := m_aptInitialized s;
    m_fileName := m_fileName s; m_packageName := m_packageName s;
    m_version := v; m_maintainer := m_maintainer s;
    m_description := m_description s; m_homePage := m_homePage s;
    m_installedSize := m_installedSize s;
    m_installedVersion := m_installedVersion s;
    m_isInstalled := m_isInstalled s; m_statusMessage := m_statusMessage s;
    m_statusDetails := m_statusDetails s;
    m_preInstallMessage := m_preInstallMessage s; m_status := m_status s;
    emitted := emitted s; dpkgRuns := dpkgRuns s; futures := futures s;
    spawned := spawned s
  |}.

Definition set_m_maintainer (v : string) (s : DebInstaller) : DebInstaller :=
  {|
    m_installProcess := m_installProcess s;
    m_dependencyWatcher := m_dependencyWatcher s; m_isValid := m_isValid s;
    m_canInstall := m_canInstall s; m_aptInitialized := m_aptInitialized s;
    m_fileName := m_fileName s; m_packageName := m_packageName s;
    m_version := m_version s; m_maintainer := v;
    m_description := m_description s; m_homePage := m_homePage s;
    m_installedSize := m_installedSize s;
    m_installedVersion := m_installedVersion s;
    m_isInstalled := m_isInstalled s; m_statusMessage := m_statusMessage s;
    m_statusDetails := m_statusDetails s;
    m_preInstallMessage := m_preInstallMessage s; m_status := m_status s;
    emitted := emitted s; dpkgRuns := dpkgRuns s; futures := futures s;
    spawned := spawned s
  |}.

Definition set_m_description (v : string) (s : DebInstaller) : DebInstaller :=
  {|
    m_installProcess := m_installProcess s;
    m_dependencyWatcher := m_dependencyWatcher s; m_isValid := m_isValid s;
    m_canInstall := m_canInstall s; m_aptInitialized := m_aptInitialized s;
    m_fileName := m_fileName s; m_packageName := m_packageName s;
    m_version := m_version s; m_maintainer := m_maintainer s;
    m_description := v; m_homePage := m_homePage s;
    m_installedSize := m_installedSize s;
    m_installedVersion := m_installedVersion s;
    m_isInstalled := m_isInstalled s; m_statusMessage := m_statusMessage s;
    m_statusDetails := m_statusDetails s;
    m_preInstallMessage := m_preInstallMessage s; m_status := m_status s;
    emitted := emitted s; dpkgRuns := dpkgRuns s; futures := futures s;
    spawned := spawned s
  |}.

Definition set_m_homePage (v : string) (s : DebInstaller) : DebInstaller :=
  {|
    m_installProcess := m_installProcess s;
    m_dependencyWatcher := m_dependencyWatcher s; m_isValid := m_isValid s;
    m_canInstall := m_canInstall s; m_aptInitialized := m_aptInitialized s;
    m_fileName := m_fileName s; m_packageName := m_packageName s;
    m_version := m_version s; m_maintainer := m_maintainer s;
    m_description := m_description s; m_homePage := v;
    m_installedSize := m_installedSize s;
    m_installedVersion := m_installedVersion s;
    m_isInstalled := m_isInstalled s; m_statusMessage := m_statusMessage s;
    m_statusDetails := m_statusDetails s;
    m_preInstallMessage := m_preInstallMessage s; m_status := m_status s;
    emitted := emitted s; dpkgRuns := dpkgRuns s; futures := futures s;
    spawned := spawned s
  |}.

Definition set_m_installedSize (v : string) (s : DebInstaller) : DebInstaller :=
  {|
    m_installProcess := m_installProcess s;
    m_dependencyWatcher := m_dependencyWatcher s; m_isValid := m_isValid s;
    m_canInstall := m_canInstall s; m_aptInitialized := m_aptInitialized s;
    m_fileName := m_fileName s; m_packageName := m_packageName s;
    m_version := m_version s; m_maintainer := m_maintainer s;
    m_description := m_description s; m_homePage := m_homePage s;
    m_installedSize := v; m_installedVersion := m_installedVersion s;
    m_isInstalled := m_isInstalled s; m_statusMessage := m_statusMessage s;
    m_statusDetails := m_statusDetails s;
    m_preInstallMessage := m_preInstallMessage s; m_status := m_status s;
    emitted := emitted s; dpkgRuns := dpkgRuns s; futures := futures s;
    spawned := spawned s
  |}.

Definition set_m_installedVersion (v : string) (s : DebInstaller) : DebInstaller :=
  {|
    m_installProcess := m_installProcess s;
    m_dependencyWatcher := m_dependencyWatcher s; m_isValid := m_isValid s;
    m_canInstall := m_canInstall s; m_aptInitialized := m_aptInitialized s;
    m_fileName := m_fileName s; m_packageName := m_packageName s;
    m_version := m_version s; m_maintainer := m_maintainer s;
    m_description := m_description s; m_homePage := m_homePage s;
    m_installedSize := m_installedSize s; m_installedVersion := v;
    m_isInstalled := m_isInstalled s; m_statusMessage := m_statusMessage s;
    m_statusDetails := m_statusDetails s;
    m_preInstallMessage := m_preInstallMessage s; m_status := m_status s;
    emitted := emitted s; dpkgRuns := dpkgRuns s; futures := futures s;
    spawned := spawned s
  |}.

Definition set_m_isInstalled (v : bool) (s : DebInstaller) : DebInstaller :=
  {|
    m_installProcess := m_installProcess s;
    m_dependencyWatcher := m_dependencyWatcher s; m_isValid := m_isValid s;
    m_canInstall := m_canInstall s; m_aptInitialized := m_aptInitialized s;
    m_fileName := m_fileName s; m_packageName := m_packageName s;
    m_version := m_version s; m_maintainer := m_maintainer s;
    m_description := m_description s; m_homePage := m_homePage s;
    m_installedSize := m_installedSize s;
    m_installedVersion := m_installedVersion s; m_isInstalled := v;
    m_statusMessage := m_statusMessage s;
    m_statusDetails := m_statusDetails s;
    m_preInstallMessage := m_preInstallMessage s; m_status := m_status s;
    emitted := emitted s; dpkgRuns := dpkgRuns s; futures := futures s;
    spawned := spawned s
  |}.

Definition set_m_statusMessage (v : string) (s : DebInstaller) : DebInstaller :=
  {|
    m_installProcess := m_installProcess s;
    m_dependencyWatcher := m_dependencyWatcher s; m_isValid := m_isValid s;
    m_canInstall := m_canInstall s; m_aptInitialized := m_aptInitialized s;
    m_fileName := m_fileName s; m_packageName := m_packageName s;
    m_version := m_version s; m_maintainer := m_maintainer s;
    m_description := m_description s; m_homePage := m_homePage s;
    m_installedSize := m_installedSize s;
    m_installedVersion := m_installedVersion s;
    m_isInstalled := m_isInstalled s; m_statusMessage := v;
    m_statusDetails := m_statusDetails s;
    m_preInstallMessage := m_preInstallMessage s; m_status := m_status s;
    emitted := emitted s; dpkgRuns := dpkgRuns s; futures := futures s;
    spawned := spawned s
  |}.

Definition set_m_statusDetails (v : string) (s : DebInstaller) : DebInstaller :=
  {|
    m_installProcess := m_installProcess s;
    m_dependencyWatcher := m_dependencyWatcher s; m_isValid := m_isValid s;
    m_canInstall := m_canInstall s; m_aptInitialized := m_aptInitialized s;
    m_fileName := m_fileName s; m_packageName := m_packageName s;
    m_version := m_version s; m_maintainer := m_maintainer s;
    m_description := m_description s; m_homePage := m_homePage s;
    m_installedSize := m_installedSize s;
    m_installedVersion := m_installedVersion s;
    m_isInstalled := m_isInstalled s; m_statusMessage := m_statusMessage s;
    m_statusDetails := v; m_preInstallMessage := m_preInstallMessage s;
    m_status := m_status s; emitted := emitted s; dpkgRuns := dpkgRuns s;
    futures := futures s; spawned := spawned s
  |}.

Definition set_m_preInstallMessage (v : string) (s : DebInstaller) : DebInstaller :=
  {|
    m_installProcess := m_installProcess s;
    m_dependencyWatcher := m_dependencyWatcher s; m_isValid := m_isValid s;
    m_canInstall := m_canInstall s; m_aptInitialized := m_aptInitialized s;
    m_fileName := m_fileName s; m_packageName := m_packageName s;
    m_version := m_version s; m_maintainer := m_maintainer s;
    m_description := m_description s; m_homePage := m_homePage s;
    m_installedSize := m_installedSize s;
    m_installedVersion := m_installedVersion s;
    m_isInstalled := m_isInstalled s; m_statusMessage := m_statusMessage s;
    m_statusDetails := m_statusDetails s; m_preInstallMessage := v;
    m_status := m_status s; emitted := emitted s; dpkgRuns := dpkgRuns s;
    futures := futures s; spawned := spawned s
  |}.

Definition set_m_status (v : Status) (s : DebInstaller) : DebInstaller :=
  {|
    m_installProcess := m_installProcess s;
    m_dependencyWatcher := m_dependencyWatcher s; m_isValid := m_isValid s;
    m_canInstall := m_canInstall s; m_aptInitialized := m_aptInitialized s;
    m_fileName := m_fileName s; m_packageName := m_packageName s;
    m_version := m_version s; m_maintainer := m_maintainer s;
    m_description := m_description s; m_homePage := m_homePage s;
    m_installedSize := m_installedSize s;
    m_installedVersion := m_installedVersion s;
    m_isInstalled := m_isInstalled s; m_statusMessage := m_statusMessage s;
    m_statusDetails := m_statusDetails s;
    m_preInstallMessage := m_preInstallMessage s; m_status := v;
    emitted := emitted s; dpkgRuns := dpkgRuns s; futures := futures s;
    spawned := spawned s
  |}.

Definition set_emitted (v : list Signal) (s : DebInstaller) : DebInstaller :=
  {|
    m_installProcess := m_installProcess s;
    m_dependencyWatcher := m_dependencyWatcher s; m_isValid := m_isValid s;
    m_canInstall := m_canInstall s; m_aptInitialized := m_aptInitialized s;
    m_fileName := m_fileName s; m_packageName := m_packageName s;
    m_version := m_version s; m_maintainer := m_maintainer s;
    m_description := m_description s; m_homePage := m_homePage s;
    m_installedSize := m_installedSize s;
    m_installedVersion := m_installedVersion s;
    m_isInstalled := m_isInstalled s; m_statusMessage := m_statusMessage s;
    m_statusDetails := m_statusDetails s;
    m_preInstallMessage := m_preInstallMessage s; m_status := m_status s;
    emitted := v; dpkgRuns := dpkgRuns s; futures := futures s;
    spawned := spawned s
  |}.

Definition set_dpkgRuns (v : list (list string)) (s : DebInstaller) : DebInstaller :=
  {|
    m_installProcess := m_installProcess s;
    m_dependencyWatcher := m_dependencyWatcher s; m_isValid := m_isValid s;
    m_canInstall := m_canInstall s; m_aptInitialized := m_aptInitialized s;
    m_fileName := m_fileName s; m_packageName := m_packageName s;
    m_version := m_version s; m_maintainer := m_maintainer s;
    m_description := m_description s; m_homePage := m_homePage s;
    m_installedSize := m_installedSize s;
    m_installedVersion := m_installedVersion s;
    m_isInstalled := m_isInstalled s; m_statusMessage := m_statusMessage s;
    m_statusDetails := m_statusDetails s;
    m_preInstallMessage := m_preInstallMessage s; m_status := m_status s;
    emitted := emitted s; dpkgRuns := v; futures := futures s;
    spawned := spawned s
  |}.

Definition set_futures (v : list (option bool)) (s : DebInstaller) : DebInstaller :=
  {|
    m_installProcess := m_installProcess s;
    m_dependencyWatcher := m_dependencyWatcher s; m_isValid := m_isValid s;
    m_canInstall := m_canInstall s; m_aptInitialized := m_aptInitialized s;
    m_fileName := m_fileName s; m_packageName := m_packageName s;
    m_version := m_version s; m_maintainer := m_maintainer s;
    m_description := m_description s; m_homePage := m_homePage s;
    m_installedSize := m_installedSize s;
    m_installedVersion := m_installedVersion s;
    m_isInstalled := m_isInstalled s; m_statusMessage := m_statusMessage s;
    m_statusDetails := m_statusDetails s;
    m_preInstallMessage := m_preInstallMessage s; m_status := m_status s;
    emitted := emitted s; dpkgRuns := dpkgRuns s; futures := v;
    spawned := spawned s
  |}.

Definition set_spawned (v : list (list string)) (s : DebInstaller) : DebInstaller :=
  {|
    m_installProcess := m_installProcess s;
    m_dependencyWatcher := m_dependencyWatcher s; m_isValid := m_isValid s;
    m_canInstall := m_canInstall s; m_aptInitialized := m_aptInitialized s;
    m_fileName := m_fileName s; m_packageName := m_packageName s;
    m_version := m_version s; m_maintainer := m_maintainer s;
    m_description := m_description s; m_homePage := m_homePage s;
    m_installedSize := m_installedSize s;
    m_installedVersion := m_installedVersion s;
    m_isInstalled := m_isInstalled s; m_statusMessage := m_statusMessage s;
    m_statusDetails := m_statusDetails s;
    m_preInstallMessage := m_preInstallMessage s; m_status := m_status s;
    emitted := emitted s; dpkgRuns := dpkgRuns s; futures := futures s;
    spawned := v
  |}.

(** *** Sequencing

    Member functions read and write the object: they are state
    transformers. *)
Definition M (A : Type) : Type := DebInstaller -> A * DebInstaller.

Definition ret {A : Type} (a : A) : M A := fun s => (a, s).

Definition bind {A B : Type} (c : M A) (k : A -> M B) : M B :=
  fun s => let (a, s') := c s in k a s'.

Definition gets {A : Type} (f : DebInstaller -> A) : M A := fun s => (f s, s).

Definition modify (f : DebInstaller -> DebInstaller) : M unit :=
  fun s => (tt, f s).

Definition exec {A : Type} (c : M A) (s : DebInstaller) : DebInstaller :=
  snd (c s).

Declare Scope deb_scope.
Delimit Scope deb_scope with deb.
Notation "x <- c1 ;; c2" := (bind c1 (fun x => c2))
  (at level 61, c1 at next level, right associativity) : deb_scope.
Notation "c1 ;; c2" := (bind c1 (fun _ => c2))
  (at level 61, right associativity) : deb_scope.
Open Scope deb_scope.

(** [emit sig] *)
Definition emit (sig : Signal) : M unit :=
  modify (fun s => set_emitted (emitted s ++ [sig]) s).

(** [tr]: no translation is installed. *)
Definition tr (s : string) : string := s.

Definition Status_eqb (a b : Status) : bool :=
  match a, b with
  | Begin, Begin | Installing, Installing
  | Error, Error | Succeeded, Succeeded => true
  | _, _ => false
  end.

Section Controller.

Variable env : Env.

(** *** [runDpkgCommand]

    The command is run and awaited for 5 seconds.  [output] is the
    reference parameter: it is assigned only when the command finished. *)
Definition runDpkgCommand (arguments : list string) (output : string)
  : M (bool * string) :=
  fun s =>
    let s' := set_dpkgRuns (dpkgRuns s ++ [arguments]) s in
    match dpkg env (List.length (dpkgRuns s)) arguments with
    | Finished out code => ((code =? 0, out), s')
    | NotFinished => ((false, output), s')
    end.

(** *** [extractControlField] *)
Definition extractControlField (fieldName : string) : M string :=
  fileName <- gets m_fileName ;;
  r <- runDpkgCommand ["-I"; fileName; fieldName] "" ;;
  if fst r then
    match QStr.fieldCapture fieldName (snd r) with
    | Some captured => ret (QStr.trimmed captured)
    | None => ret ""
    end
  else ret "".

(** *** [formatByteSize]

    The loop divides while the magnitude is at least 1024 and the unit is
    below 8; the unit grows at each turn, so 8 turns are the most it can
    take from unit 0 ([scaleLoop_spec] below). *)
Definition multiplier : Dbl.double := Dbl.ofZ 1024.

Fixpoint scaleLoop (turns : nat) (size : Dbl.double) (unit : Z)
  : Dbl.double * Z :=
  match turns with
  | O => (size, unit)
  | S turns' =>
      if Dbl.geb (Dbl.qAbs size) multiplier && (unit <? 8)
      then scaleLoop turns' (Dbl.div size multiplier) (unit + 1)
      else (size, unit)
  end.

Definition unitSuffix (unit : Z) : option string :=
  match unit with
  | 0 => Some " B"
  | 1 => Some " KB"
  | 2 => Some " MB"
  | 3 => Some " GB"
  | 4 => Some " TB"
  | 5 => Some " PB"
  | 6 => Some " EB"
  | 7 => Some " ZB"
  | 8 => Some " YB"
  | _ => None
  end.

Definition formatByteSize (size : Dbl.double) (precision : Z) : string :=
  let (size', unit) := scaleLoop 8 size 0 in
  let precision' := if unit =? 0 then 0 else precision in
  let numString := Dbl.number size' precision' in
  match unitSuffix unit with
  | Some suffix => numString ++ suffix
  | None => ""
  end.

(** *** [parseDebFile] *)
Definition parseDebFile : M bool :=
  fileName <- gets m_fileName ;;
  r <- runDpkgCommand ["-I"; fileName] "" ;;
  if negb (fst r) then ret false
  else
    v <- extractControlField "Package" ;; modify (set_m_packageName v) ;;
    v <- extractControlField "Version" ;; modify (set_m_version v) ;;
    v <- extractControlField "Maintainer" ;; modify (set_m_maintainer v) ;;
    v <- extractControlField "Description" ;; modify (set_m_description v) ;;
    v <- extractControlField "Homepage" ;; modify (set_m_homePage v) ;;
    description <- gets m_description ;;
    match QStr.indexOf QStr.newline description with
    | Some (S n) => modify (set_m_description (QStr.left (S n) description))
    | _ => ret tt
    end ;;
    installedSizeStr <- extractControlField "Installed-Size" ;;
    (if negb (QStr.isEmpty installedSizeStr) then
       match toDouble env installedSizeStr with
       | Some size =>
           modify (set_m_installedSize
                     (formatByteSize (Dbl.mul size (Dbl.ofZ 1024)) 1))
       | None => ret tt
       end
     else ret tt) ;;
    packageName <- gets m_packageName ;;
    ret (negb (QStr.isEmpty packageName)).

(** *** [updatePackageInfo] *)
Definition notInstalled : M unit :=
  modify (set_m_isInstalled false) ;; modify (set_m_installedVersion "").

Definition updatePackageInfo : M unit :=
  aptInitialized <- gets m_aptInitialized ;;
  packageName <- gets m_packageName ;;
  if negb aptInitialized || QStr.isEmpty packageName then notInstalled
  else
    match pkgCache env with
    | None => notInstalled
    | Some findPkg =>
        match findPkg packageName with
        | None => notInstalled
        | Some pkg =>
            modify (set_m_isInstalled (currentStateInstalled pkg)) ;;
            match currentVer pkg with
            | Some ver => modify (set_m_installedVersion ver)
            | None => modify (set_m_installedVersion "")
            end
        end ;;
        emit isInstalledChanged ;;
        emit installedVersionChanged ;;
        emit packageNameChanged ;;
        emit versionChanged ;;
        emit maintainerChanged ;;
        emit descriptionChanged ;;
        emit homePageChanged ;;
        emit installedSizeChanged
    end.

(** *** The three checks of the background task *)
Definition checkDependencies : M bool :=
  fileName <- gets m_fileName ;;
  r <- runDpkgCommand ["--dry-run"; "-i"; fileName] "" ;;
  if fst r then ret true
  else if QStr.containsCI "depends" (snd r)
          || QStr.containsCI "dependency" (snd r)
       then modify (set_m_preInstallMessage (tr "Error: Unmet dependencies")) ;;
            ret false
       else ret true.

Definition checkConflicts : M bool :=
  fileName <- gets m_fileName ;;
  r <- runDpkgCommand ["--dry-run"; "-i"; fileName] "" ;;
  if fst r then ret false
  else if QStr.containsCI "conflict" (snd r)
       then modify (set_m_preInstallMessage (tr "Error: Package conflicts")) ;;
            ret true
       else ret false.

Definition checkBreaksSystem : M bool := ret false.

(** The lambda handed to [QtConcurrent::run]; [&&] evaluates its right
    operand only when the left one is true. *)
Definition dependencyTask : M bool :=
  d <- checkDependencies ;;
  if d then
    c <- checkConflicts ;;
    if negb c then
      b <- checkBreaksSystem ;;
      ret (negb b)
    else ret false
  else ret false.

(** The lambda connected to [QFutureWatcher::finished]; [result] is
    [m_dependencyWatcher->result()]. *)
Definition dependencyFinished (result : bool) : M unit :=
  modify (set_m_canInstall result) ;;
  preInstallMessage <- gets m_preInstallMessage ;;
  (if negb result && QStr.isEmpty preInstallMessage
   then modify (set_m_preInstallMessage
                  (tr "Error: Cannot satisfy dependencies"))
   else ret tt) ;;
  emit canInstallChanged ;;
  emit preInstallMessageChanged.

(** [QtConcurrent::run] queues a new task, whose future is the next index
    of [futures]; [setFuture] makes the watcher (created on first use) watch
    that future and forget the one it watched before. *)
Definition launchDependencyTask : M unit :=
  n <- gets (fun s => List.length (futures s)) ;;
  modify (fun s => set_futures (futures s ++ [None]) s) ;;
  modify (set_m_dependencyWatcher (Some n)).

Definition debianMimeType : string := "application/vnd.debian.binary-package".

(** *** [setFileName] *)
Definition setFileName (fileName : string) : M unit :=
  current <- gets m_fileName ;;
  if QStr.isEmpty fileName || String.eqb current fileName then ret tt
  else
    let newPath := QStr.remove "file://" fileName in
    let path := absoluteFilePath env newPath in
    let mimeType := mimeTypeForFile env path in
    if negb (String.eqb mimeType debianMimeType) then
      modify (set_m_preInstallMessage (tr "Error: Not a valid Debian package")) ;;
      emit preInstallMessageChanged
    else
      modify (set_m_fileName path) ;;
      modify (set_m_isValid false) ;;
      modify (set_m_canInstall false) ;;
      modify (set_m_preInstallMessage "") ;;
      valid <- parseDebFile ;;
      modify (set_m_isValid valid) ;;
      emit isValidChanged ;;
      (if valid then
         updatePackageInfo ;;
         launchDependencyTask
       else
         modify (set_m_preInstallMessage
                   (tr "Error: Invalid or corrupted package")) ;;
         emit preInstallMessageChanged) ;;
      emit fileNameChanged.

(** *** [setStatus] *)
Definition setStatus (status : Status) : M unit :=
  current <- gets m_status ;;
  if negb (Status_eqb current status) then
    modify (set_m_status status) ;; emit statusChanged
  else ret tt.

(** [QProcess::start]: a process object that is already running only
    prints a warning; otherwise the child is started with empty buffers. *)
Definition processStart (arguments : list string) : M unit :=
  p <- gets m_installProcess ;;
  match processState p with
  | Running => ret tt
  | NotRunning =>
      modify (set_m_installProcess (mkQProcess Running "" "")) ;;
      modify (fun s => set_spawned (spawned s ++ [arguments]) s)
  end.

(** *** [install] *)
Definition install : M unit :=
  valid <- gets m_isValid ;;
  canInstall <- gets m_canInstall ;;
  if negb valid || negb canInstall then ret tt
  else
    setStatus Installing ;;
    modify (set_m_statusMessage (tr "Starting installation")) ;;
    modify (set_m_statusDetails "") ;;
    emit statusMessageChanged ;;
    emit statusDetailsTextChanged ;;
    emit requestSwitchToInstallPage ;;
    fileName <- gets m_fileName ;;
    processStart ["-i"; fileName].

(** [readAllStandardError] and [readAllStandardOutput] hand over what is
    buffered and leave the buffer empty. *)
Definition readAllStandardError : M string :=
  p <- gets m_installProcess ;;
  modify (set_m_installProcess
            (mkQProcess (processState p) (stdoutBuffer p) "")) ;;
  ret (stderrBuffer p).

Definition readAllStandardOutput : M string :=
  p <- gets m_installProcess ;;
  modify (set_m_installProcess
            (mkQProcess (processState p) "" (stderrBuffer p))) ;;
  ret (stdoutBuffer p).

Definition isSuccess (exitCode : Z) (exitStatus : ExitStatus) : bool :=
  match exitStatus with
  | NormalExit => exitCode =? 0
  | CrashExit => false
  end.

Definition newlineString : string := String QStr.newline EmptyString.

(** *** [onInstallFinished] *)
Definition onInstallFinished (exitCode : Z) (exitStatus : ExitStatus)
  : M unit :=
  (if isSuccess exitCode exitStatus then
     setStatus Succeeded ;;
     modify (set_m_statusMessage (tr "Installation successful")) ;;
     modify (set_m_isInstalled true) ;;
     emit isInstalledChanged
   else
     setStatus Error ;;
     modify (set_m_statusMessage (tr "Installation failed")) ;;
     errorOutput <- readAllStandardError ;;
     errorOutput <- (if QStr.isEmpty errorOutput
                     then readAllStandardOutput
                     else ret errorOutput) ;;
     if negb (QStr.isEmpty errorOutput) then
       modify (fun s =>
                 set_m_statusDetails
                   (m_statusDetails s ++ newlineString ++ tr "Error:"
                      ++ newlineString ++ errorOutput) s) ;;
       emit statusDetailsTextChanged
     else ret tt) ;;
  emit statusMessageChanged.

(** *** [onInstallOutput] *)
Definition onInstallOutput : M unit :=
  output <- readAllStandardOutput ;;
  (if negb (QStr.isEmpty output) then
     modify (fun s => set_m_statusDetails (m_statusDetails s ++ output) s) ;;
     emit statusDetailsTextChanged
   else ret tt) ;;
  output <- readAllStandardError ;;
  if negb (QStr.isEmpty output) then
    modify (fun s => set_m_statusDetails (m_statusDetails s ++ output) s) ;;
    emit statusDetailsTextChanged
  else ret tt.

(** *** [initializeApt] and the constructor *)
Definition initializeApt : M bool :=
  aptInitialized <- gets m_aptInitialized ;;
  if aptInitialized then ret true
  else if negb (pkgInitConfig env) then
    modify (set_m_statusDetails (tr "Failed to initialize APT configuration")) ;;
    emit statusDetailsTextChanged ;;
    ret false
  else if negb (cacheOpen env) then
    modify (set_m_statusDetails (tr "Failed to open APT cache")) ;;
    emit statusDetailsTextChanged ;;
    ret false
  else ret true.

Definition memberInit : DebInstaller :=
  {|
    m_installProcess := mkQProcess NotRunning "" "";
    m_dependencyWatcher := None;
    m_isValid := false; m_canInstall := false; m_aptInitialized := false;
    m_fileName := ""; m_packageName := ""; m_version := "";
    m_maintainer := ""; m_description := ""; m_homePage := "";
    m_installedSize := ""; m_installedVersion := "";
    m_isInstalled := false;
    m_statusMessage := ""; m_statusDetails := ""; m_preInstallMessage := "";
    m_status := Begin;
    emitted := []; dpkgRuns := []; futures := []; spawned := []
  |}.

Definition construct : DebInstaller :=
  let (ok, s) := initializeApt memberInit in
  set_m_aptInitialized ok s.

(** *** Events

    What reaches the object once it is constructed: the two calls of the
    public interface, the pool thread running a queued task, the completion
    of a future reaching the watcher through the event loop, and the child
    process writing and exiting. *)
Inductive Event : Type :=
| CallSetFileName (fileName : string)
| CallInstall
| TaskRuns (future : nat)
| FutureFinished (future : nat)
| ChildWritesOutput (data : string)
| ChildWritesError (data : string)
| ChildExits (exitCode : Z) (exitStatus : ExitStatus).

(** Replace the element at [n]; a list too short is left as it is. *)
Fixpoint setNth {A : Type} (n : nat) (a : A) (l : list A) : list A :=
  match l with
  | [] => []
  | x :: l' =>
      match n with
      | O => a :: l'
      | S n' => x :: setNth n' a l'
      end
  end.

(** The pool thread runs the task of a future that is still pending.  The
    task reads [m_fileName] and writes [m_preInstallMessage] when it runs,
    not when it was queued; it is taken here as one step. *)
Definition taskRuns (future : nat) : M unit :=
  fs <- gets futures ;;
  match nth_error fs future with
  | Some None =>
      r <- dependencyTask ;;
      modify (fun s => set_futures (setNth future (Some r) (futures s)) s)
  | _ => ret tt
  end.

(** The completion of [future] reaches the event loop.  The watcher emits
    [finished] only for the future it watches now: [setFuture] disconnected
    it from the previous one and removed the call-outs still queued for it. *)
Definition futureFinished (future : nat) : M unit :=
  w <- gets m_dependencyWatcher ;;
  fs <- gets futures ;;
  match w with
  | Some watched =>
      if Nat.eqb watched future then
        match nth_error fs future with
        | Some (Some result) => dependencyFinished result
        | _ => ret tt
        end
      else ret tt
  | None => ret tt
  end.

(** The running child writes to one of its pipes; the matching
    [readyRead...] signal calls [onInstallOutput]. *)
Definition childWrites (toError : bool) (data : string) : M unit :=
  p <- gets m_installProcess ;;
  match processState p with
  | NotRunning => ret tt
  | Running =>
      modify (set_m_installProcess
                (if toError
                 then mkQProcess Running (stdoutBuffer p) (stderrBuffer p ++ data)
                 else mkQProcess Running (stdoutBuffer p ++ data) (stderrBuffer p))) ;;
      onInstallOutput
  end.

(** The running child ends; [finished] calls [onInstallFinished]. *)
Definition childExits (exitCode : Z) (exitStatus : ExitStatus) : M unit :=
  p <- gets m_installProcess ;;
  match processState p with
  | NotRunning => ret tt
  | Running =>
      modify (set_m_installProcess
                (mkQProcess NotRunning (stdoutBuffer p) (stderrBuffer p))) ;;
      onInstallFinished exitCode exitStatus
  end.

Definition step (e : Event) : M unit :=
  match e with
  | CallSetFileName fileName => setFileName fileName
  | CallInstall => install
  | TaskRuns future => taskRuns future
  | FutureFinished future => futureFinished future
  | ChildWritesOutput data => childWrites false data
  | ChildWritesError data => childWrites true data
  | ChildExits exitCode exitStatus => childExits exitCode exitStatus
  end.

Fixpoint run (events : list Event) (s : DebInstaller) : DebInstaller :=
  match events with
  | [] => s
  | e :: events' => run events' (exec (step e) s)
  end.

End Controller.

(** *** A concrete system

    Every path is absolute and sniffed as a Debian package, except
    [/tmp/notes.txt].  [/tmp/a.deb] declares an installed size,
    [/tmp/b.deb] does not.  [trial] tells how the trial install of an
    archive ends. *)
Definition controlA : string :=
  " Package: foo" ++ newlineString ++ " Version: 1.2.3" ++ newlineString
  ++ " Installed-Size: 100" ++ newlineString.

Definition controlB : string :=
  " Package: bar" ++ newlineString ++ " Version: 2.0" ++ newlineString.

Definition controlOf (fileName : string) : string :=
  if String.eqb fileName "/tmp/b.deb" then controlB else controlA.

Definition sampleDpkg (trial : string -> Outcome) (n : nat)
  (arguments : list string) : Outcome :=
  match arguments with
  | ["-I"; fileName] => Finished (controlOf fileName) 0
  | ["-I"; fileName; _] => Finished (controlOf fileName) 0
  | ["--dry-run"; "-i"; fileName] => trial fileName
  | _ => NotFinished
  end.

Definition sampleEnv (trial : string -> Outcome) : Env :=
  {|
    absoluteFilePath := fun path => path;
    mimeTypeForFile := fun path =>
      if String.eqb path "/tmp/notes.txt" then "text/plain" else debianMimeType;
    dpkg := sampleDpkg trial;
    toDouble := fun text =>
      if String.eqb text "100" then Some (Dbl.ofZ 100) else None;
    pkgInitConfig := true;
    cacheOpen := true;
    pkgCache := Some (fun _ => None)
  |}.

(** Every trial install succeeds. *)
Definition trialOk (fileName : string) : Outcome := Finished "" 0.


(** The trial install of [/tmp/b.deb] fails on a dependency; the others
    succeed. *)
Definition trialUnmetB (fileName : string) : Outcome :=
  if String.eqb fileName "/tmp/b.deb"
  then Finished "dpkg: dependency problems prevent configuration of bar" 1
  else Finished "" 0.

(** A system in which no helper command ever finishes in time. *)
Definition stalledEnv : Env :=
  {|
    absoluteFilePath := fun path => path;
    mimeTypeForFile := fun _ => debianMimeType;
    dpkg := fun _ _ => NotFinished;
    toDouble := fun _ => None;
    pkgInitConfig := true;
    cacheOpen := true;
    pkgCache := Some (fun _ => None)
  |}.

End Deb.

(* ================================================================== *)
(** ** Vocabulary of the properties *)
(* ================================================================== *)

Import Deb.

(** The pair [runDpkgCommand] returns for an outcome of the command. *)
Definition helperResult (o : Outcome) (output : string) : bool * string :=
  match o with
  | Finished out code => (code =? 0, out)
  | NotFinished => (false, output)
  end.

(** What [extractControlField] returns when it is the [n]-th helper run. *)
Definition fieldValue (env : Env) (n : nat) (fileName fieldName : string)
  : string :=
  let r := helperResult (dpkg env n ["-I"; fileName; fieldName]) "" in
  if fst r then
    match QStr.fieldCapture fieldName (snd r) with
    | Some captured => QStr.trimmed captured
    | None => ""
    end
  else "".

(** The members and records that only [setFileName] and the pool thread
    change: the watcher, the queue of futures, the extracted fields and the
    selected file. *)
Definition untouched (s s' : DebInstaller) : Prop :=
  m_dependencyWatcher s' = m_dependencyWatcher s
  /\ futures s' = futures s
  /\ m_packageName s' = m_packageName s
  /\ m_version s' = m_version s
  /\ m_maintainer s' = m_maintainer s
  /\ m_homePage s' = m_homePage s
  /\ m_fileName s' = m_fileName s.

(** What [onInstallFinished] appends to the log for a given output. *)
Definition errorBlock (output : string) : string :=
  if QStr.isEmpty output then ""
  else newlineString ++ "Error:" ++ newlineString ++ output.

(** What [onInstallFinished] finds to report: the buffered error output,
    or the buffered standard output when there is no error output. *)
Definition remainingOutput (p : QProcess) : string :=
  if QStr.isEmpty (stderrBuffer p) then stdoutBuffer p else stderrBuffer p.

(** A value is a single trimmed line: it holds no line feed, and neither
    its first nor its last character is white space, so that trimming it
    again changes nothing. *)
Definition singleTrimmedLine (v : string) : Prop :=
  QStr.hasChar QStr.newline v = false
  /\ (forall c, QStr.first v = Some c -> QStr.isSpace c = false)
  /\ (forall c, QStr.last v = Some c -> QStr.isSpace c = false)
  /\ QStr.trimmed v = v.

(** The four exposed strings that come from one control field each. *)
Definition cleanFields (s : DebInstaller) : Prop :=
  singleTrimmedLine (m_packageName s)
  /\ singleTrimmedLine (m_version s)
  /\ singleTrimmedLine (m_maintainer s)
  /\ singleTrimmedLine (m_homePage s).

(** The watcher watches a future queued at position [k] or later. *)
Definition watchesFrom (k : nat) (s : DebInstaller) : Prop :=
  exists w,
    m_dependencyWatcher s = Some w
    /\ (k <= w)%nat
    /\ (w < List.length (futures s))%nat.

(** [size] divided [k] times by 1024.0, in double arithmetic. *)
Fixpoint divTimes (k : nat) (size : Dbl.double) : Dbl.double :=
  match k with
  | O => size
  | S k' => divTimes k' (Dbl.div size multiplier)
  end.

(** The test of the loop of [formatByteSize] on the magnitude. *)
Definition atLeast1024 (size : Dbl.double) : bool :=
  Dbl.geb (Dbl.qAbs size) multiplier.

(** The suffixes of the [switch], by unit. *)
Definition unitNames : list string :=
  [" B"; " KB"; " MB"; " GB"; " TB"; " PB"; " EB"; " ZB"; " YB"].

(** The significand of 1024.0, and of every power of two. *)
Definition p52 : positive := 4503599627370496.

(** The number of divisions a normal double of exponent [e] goes through
    when [turns] are left: the magnitude lies in [2^(e+52), 2^(e+53)). *)
Definition divisions (turns : nat) (e : Z) : Z :=
  Z.min (Z.of_nat turns) (Z.max 0 ((e + 52) / 10)).

(** A state reached while the child installs [/tmp/a.deb]: the archive was
    selected, its check ran and was delivered, [install()] was called and the
    child has written a first line. *)
Definition installingState : DebInstaller :=
  run (sampleEnv trialOk)
    [CallSetFileName "/tmp/a.deb"; TaskRuns 0; FutureFinished 0; CallInstall;
     ChildWritesOutput "Unpacking foo"]
    (construct (sampleEnv trialOk)).

(** The state after [/tmp/a.deb] has been selected once. *)
Definition selectedA : DebInstaller :=
  run (sampleEnv trialOk) [CallSetFileName "/tmp/a.deb"]
    (construct (sampleEnv trialOk)).

(** The helper commands of one complete extraction, in the order
    [parseDebFile] runs them. *)
Definition extractionRuns (fileName : string) : list (list string) :=
  [["-I"; fileName];
   ["-I"; fileName; "Package"];
   ["-I"; fileName; "Version"];
   ["-I"; fileName; "Maintainer"];
   ["-I"; fileName; "Description"];
   ["-I"; fileName; "Homepage"];
   ["-I"; fileName; "Installed-Size"]].

(** What [parseDebFile] makes of the installed-size field: the formatted
    size when the text is a number, the previous value otherwise. *)
Definition installedSizeOf (env : Env) (text previous : string) : string :=
  if QStr.isEmpty text then previous
  else match toDouble env text with
       | Some size => formatByteSize (Dbl.mul size (Dbl.ofZ 1024)) 1
       | None => previous
       end.

(** What the calls and events of the install session ([install], the
    child writing, the child exiting) leave alone. *)
Definition selectionKept (s s' : DebInstaller) : Prop :=
  m_isValid s' = m_isValid s
  /\ m_canInstall s' = m_canInstall s
  /\ m_preInstallMessage s' = m_preInstallMessage s
  /\ m_packageName s' = m_packageName s
  /\ m_aptInitialized s' = m_aptInitialized s
  /\ dpkgRuns s' = dpkgRuns s.

(** What the selection of an archive and its background check leave
    alone. *)
Definition sessionKept (s s' : DebInstaller) : Prop :=
  m_status s' = m_status s
  /\ m_installProcess s' = m_installProcess s
  /\ spawned s' = spawned s
  /\ m_statusDetails s' = m_statusDetails s
  /\ m_statusMessage s' = m_statusMessage s
  /\ m_aptInitialized s' = m_aptInitialized s.

(** A valid archive has a package name. *)
Definition validHasName (s : DebInstaller) : Prop :=
  m_isValid s = true -> QStr.isEmpty (m_packageName s) = false.

(** The install session is consistent: a running child means status
    [Installing], status [Begin] means no child was ever started, and the
    slots have read everything the child wrote. *)
Definition sessionConsistent (s : DebInstaller) : Prop :=
  (processState (m_installProcess s) = Running -> m_status s = Installing)
  /\ (m_status s = Begin -> spawned s = [])
  /\ stdoutBuffer (m_installProcess s) = ""
  /\ stderrBuffer (m_installProcess s) = "".

(** A piece of output of the child: on the error pipe or not, and the
    data. *)
Definition Chunk : Type := (bool * string)%type.

Definition chunkEvent (c : Chunk) : Event :=
  if fst c then ChildWritesError (snd c) else ChildWritesOutput (snd c).

Fixpoint concatChunks (chunks : list Chunk) : string :=
  match chunks with
  | [] => ""
  | c :: chunks' => snd c ++ concatChunks chunks'
  end.

(** The message the completion lambda falls back to. *)
Definition fallbackMessage : string := "Error: Cannot satisfy dependencies".

(** A negative result of the watched check comes with a message, and the
    fallback message is not in use. *)
Definition verdictExplained (s : DebInstaller) : Prop :=
  (forall w,
      m_dependencyWatcher s = Some w ->
      nth_error (futures s) w = Some (Some false) ->
      m_preInstallMessage s <> "")
  /\ m_preInstallMessage s <> fallbackMessage.

(** What everything but a selection leaves alone. *)
Definition validityKept (s s' : DebInstaller) : Prop :=
  m_isValid s' = m_isValid s
  /\ m_packageName s' = m_packageName s
  /\ m_aptInitialized s' = m_aptInitialized s.

(** The signals [updatePackageInfo] emits after a lookup. *)
Definition packageInfoSignals : list Signal :=
  [isInstalledChanged; installedVersionChanged; packageNameChanged;
   versionChanged; maintainerChanged; descriptionChanged; homePageChanged;
   installedSizeChanged].

(** The trial install of the selected file. *)
Definition trialRun (s : DebInstaller) : list string :=
  ["--dry-run"; "-i"; m_fileName s].

(** Every character of [s] is white space for the regular expression. *)
Fixpoint allRegexSpace (s : string) : bool :=
  match s with
  | EmptyString => true
  | String c s' => QStr.isRegexSpace c && allRegexSpace s'
  end.

(** The installed size [parseDebFile] exposes for [n] KiB is [n.0 KB];
    checked by evaluation. *)
Definition wholeKiB (n : nat) : bool :=
  String.eqb
    (formatByteSize (Dbl.mul (Dbl.ofZ (Z.of_nat n)) (Dbl.ofZ 1024)) 1)
    (Dbl.decimal (Z.of_nat n) ++ ".0 KB").

(** A system like [sampleEnv] in which the trial install passes as long as
    fewer than 16 helper commands have been run, and reports a dependency
    problem afterwards. *)
Definition lateUnmetEnv : Env :=
  {|
    absoluteFilePath := fun path => path;
    mimeTypeForFile := fun _ => debianMimeType;
    dpkg := fun n arguments =>
      match arguments with
      | ["--dry-run"; "-i"; _] =>
          if Nat.ltb n 16 then Finished "" 0
          else Finished "dpkg: dependency problems prevent configuration" 1
      | _ => sampleDpkg trialOk n arguments
      end;
    toDouble := fun _ => None;
    pkgInitConfig := true;
    cacheOpen := true;
    pkgCache := Some (fun _ => None)
  |}.

(** What the MIME guard of [setFileName] does to the object. *)
Definition rejectedAsNotPackage (s : DebInstaller) : DebInstaller :=
  set_emitted (emitted s ++ [preInstallMessageChanged])
    (set_m_preInstallMessage "Error: Not a valid Debian package" s).

(* ================================================================== *)
(** ** Properties *)
(* ================================================================== *)

(** Unfold the sequencing of a member function applied to a state. *)
Ltac run_member :=
  unfold exec, bind, ret, gets, modify, emit in *; cbn in *.

Arguments runDpkgCommand : simpl never.
Arguments extractControlField : simpl never.
Arguments parseDebFile : simpl never.
Arguments updatePackageInfo : simpl never.
Arguments dependencyTask : simpl never.

(** *** Strings *)

Lemma append_empty_r (s : string) : s ++ "" = s.
Proof.
  induction s as [|c s IH]; cbn; [reflexivity|]. now rewrite IH.
Qed.

Lemma takeWhile_notNewline (s : string) :
  QStr.hasChar QStr.newline (QStr.takeWhile QStr.notNewline s) = false.
Proof.
  induction s as [|c s IH]; [reflexivity|].
  change (QStr.takeWhile QStr.notNewline (String c s))
    with (if QStr.notNewline c
          then String c (QStr.takeWhile QStr.notNewline s) else "").
  unfold QStr.notNewline at 1.
  destruct (Ascii.eqb c QStr.newline) eqn:E; [reflexivity|].
  change (negb false) with true. cbv iota.
  change (QStr.hasChar QStr.newline (String c (QStr.takeWhile QStr.notNewline s)))
    with (Ascii.eqb QStr.newline c || QStr.hasChar QStr.newline (QStr.takeWhile QStr.notNewline s)).
  rewrite Ascii.eqb_sym, E. exact IH.
Qed.

Lemma dropWhile_hasChar (f : ascii -> bool) (c : ascii) (s : string) :
  QStr.hasChar c s = false -> QStr.hasChar c (QStr.dropWhile f s) = false.
Proof.
  induction s as [|d s IH]; cbn; [reflexivity|].
  intros H. apply orb_false_iff in H as [Hd Hs].
  destruct (f d); [now apply IH|].
  cbn. now rewrite Hd, Hs.
Qed.

Lemma dropWhileEnd_hasChar (f : ascii -> bool) (c : ascii) (s : string) :
  QStr.hasChar c s = false -> QStr.hasChar c (QStr.dropWhileEnd f s) = false.
Proof.
  induction s as [|d s IH]; cbn; [reflexivity|].
  intros H. apply orb_false_iff in H as [Hd Hs].
  destruct (QStr.isEmpty (QStr.dropWhileEnd f s) && f d); [reflexivity|].
  cbn. now rewrite Hd, IH.
Qed.

Lemma dropWhile_first (f : ascii -> bool) (s : string) (c : ascii) :
  QStr.first (QStr.dropWhile f s) = Some c -> f c = false.
Proof.
  induction s as [|d s IH]; cbn; [discriminate|].
  destruct (f d) eqn:E; [exact IH|].
  cbn. intros H. injection H as <-. exact E.
Qed.

Lemma dropWhileEnd_first (f : ascii -> bool) (s : string) (c : ascii) :
  QStr.first (QStr.dropWhileEnd f s) = Some c -> QStr.first s = Some c.
Proof.
  destruct s as [|d s]; cbn; [discriminate|].
  destruct (QStr.isEmpty (QStr.dropWhileEnd f s) && f d); cbn;
    [discriminate|auto].
Qed.

Lemma dropWhileEnd_last (f : ascii -> bool) (s : string) (c : ascii) :
  QStr.last (QStr.dropWhileEnd f s) = Some c -> f c = false.
Proof.
  induction s as [|d s IH]; cbn; [discriminate|].
  destruct (QStr.dropWhileEnd f s) as [|e r] eqn:E; cbn.
  - destruct (f d) eqn:Ed; cbn; [discriminate|].
    intros H. injection H as <-. exact Ed.
  - exact IH.
Qed.

Lemma dropWhile_fixed (f : ascii -> bool) (s : string) :
  (forall c, QStr.first s = Some c -> f c = false) ->
  QStr.dropWhile f s = s.
Proof.
  destruct s as [|d s]; cbn; [reflexivity|].
  intros H. now rewrite (H d eq_refl).
Qed.

Lemma dropWhileEnd_fixed (f : ascii -> bool) (s : string) :
  (forall c, QStr.last s = Some c -> f c = false) ->
  QStr.dropWhileEnd f s = s.
Proof.
  induction s as [|d s IH]; cbn; [reflexivity|].
  intros H. destruct s as [|e r].
  - cbn. now rewrite (H d eq_refl).
  - rewrite IH by exact H. reflexivity.
Qed.

Lemma singleTrimmedLine_empty : singleTrimmedLine "".
Proof. repeat split; cbn; discriminate. Qed.

Lemma trimmed_singleTrimmedLine (v : string) :
  QStr.hasChar QStr.newline v = false ->
  singleTrimmedLine (QStr.trimmed v).
Proof.
  intros H. unfold QStr.trimmed.
  assert (Hf : forall c,
             QStr.first (QStr.dropWhileEnd QStr.isSpace
                           (QStr.dropWhile QStr.isSpace v)) = Some c ->
             QStr.isSpace c = false).
  { intros c Hc. apply dropWhileEnd_first in Hc.
    now apply dropWhile_first in Hc. }
  assert (Hl : forall c,
             QStr.last (QStr.dropWhileEnd QStr.isSpace
                          (QStr.dropWhile QStr.isSpace v)) = Some c ->
             QStr.isSpace c = false).
  { intros c Hc. now apply dropWhileEnd_last in Hc. }
  repeat split; auto.
  - now apply dropWhileEnd_hasChar, dropWhile_hasChar.
  - unfold QStr.trimmed.
    rewrite (dropWhile_fixed _ _ Hf). now apply dropWhileEnd_fixed.
Qed.

(** *** Helper commands, made explicit *)

Lemma runDpkgCommand_eq
  (env : Env) (arguments : list string) (output : string) (s : DebInstaller) :
  runDpkgCommand env arguments output s
  = (helperResult (dpkg env (List.length (dpkgRuns s)) arguments) output,
     set_dpkgRuns (dpkgRuns s ++ [arguments]) s).
Proof.
  unfold runDpkgCommand, helperResult.
  destruct (dpkg env (List.length (dpkgRuns s)) arguments); reflexivity.
Qed.

Lemma extractControlField_eq
  (env : Env) (fieldName : string) (s : DebInstaller) :
  extractControlField env fieldName s
  = (fieldValue env (List.length (dpkgRuns s)) (m_fileName s) fieldName,
     set_dpkgRuns (dpkgRuns s ++ [["-I"; m_fileName s; fieldName]]) s).
Proof.
  unfold extractControlField, fieldValue. run_member.
  rewrite runDpkgCommand_eq.
  destruct (helperResult _ _) as [ok out]; cbn.
  destruct ok; [destruct (QStr.fieldCapture fieldName out)|]; reflexivity.
Qed.

(** Push a state through a member function: helper runs are replaced by
    their explicit form, and the remaining tests are split. *)
Ltac split_tests :=
  repeat (cbn;
          match goal with
          | |- context [runDpkgCommand ?e ?a ?o ?s] =>
              rewrite (runDpkgCommand_eq e a o s)
          | |- context [extractControlField ?e ?f ?s] =>
              rewrite (extractControlField_eq e f s)
          | |- context [match ?x with _ => _ end] =>
              lazymatch x with
              | context [match _ with _ => _ end] => fail
              | _ => destruct x eqn:?
              end
          end);
  cbn.

Ltac split_conj := repeat match goal with |- _ /\ _ => split end.

(** *** What the slots leave alone *)

Lemma untouched_refl (s : DebInstaller) : untouched s s.
Proof. repeat split. Qed.

Lemma untouched_trans (s1 s2 s3 : DebInstaller) :
  untouched s1 s2 -> untouched s2 s3 -> untouched s1 s3.
Proof.
  unfold untouched. intuition congruence.
Qed.

Lemma install_untouched (s : DebInstaller) : untouched s (exec install s).
Proof.
  unfold untouched, install, setStatus, processStart. run_member.
  split_tests; repeat split.
Qed.

Lemma onInstallOutput_untouched (s : DebInstaller) :
  untouched s (exec onInstallOutput s).
Proof.
  unfold untouched, onInstallOutput, readAllStandardOutput,
    readAllStandardError.
  run_member. split_tests; repeat split.
Qed.

Lemma onInstallFinished_untouched
  (exitCode : Z) (exitStatus : ExitStatus) (s : DebInstaller) :
  untouched s (exec (onInstallFinished exitCode exitStatus) s).
Proof.
  unfold untouched, onInstallFinished, setStatus, readAllStandardOutput,
    readAllStandardError.
  run_member. split_tests; repeat split.
Qed.

Lemma childWrites_untouched (toError : bool) (data : string) (s : DebInstaller) :
  untouched s (exec (childWrites toError data) s).
Proof.
  unfold untouched, childWrites, onInstallOutput, readAllStandardOutput,
    readAllStandardError.
  run_member. split_tests; repeat split.
Qed.

Lemma childExits_untouched
  (exitCode : Z) (exitStatus : ExitStatus) (s : DebInstaller) :
  untouched s (exec (childExits exitCode exitStatus) s).
Proof.
  unfold untouched, childExits, onInstallFinished, setStatus,
    readAllStandardOutput, readAllStandardError.
  run_member. split_tests; repeat split.
Qed.

Lemma dependencyFinished_untouched (result : bool) (s : DebInstaller) :
  untouched s (exec (dependencyFinished result) s).
Proof.
  unfold untouched, dependencyFinished. run_member.
  split_tests; repeat split.
Qed.

Lemma futureFinished_untouched (future : nat) (s : DebInstaller) :
  untouched s (exec (futureFinished future) s).
Proof.
  unfold futureFinished. run_member.
  destruct (m_dependencyWatcher s) as [w|]; [|apply untouched_refl].
  destruct (Nat.eqb w future); [|apply untouched_refl].
  destruct (nth_error (futures s) future) as [[r|]|];
    try apply untouched_refl.
  apply dependencyFinished_untouched.
Qed.

Lemma dependencyTask_untouched (env : Env) (s : DebInstaller) :
  untouched s (snd (dependencyTask env s)).
Proof.
  unfold untouched, dependencyTask, checkDependencies, checkConflicts,
    checkBreaksSystem.
  run_member. split_tests; repeat split.
Qed.

Lemma updatePackageInfo_untouched (env : Env) (s : DebInstaller) :
  untouched s (snd (updatePackageInfo env s)).
Proof.
  unfold untouched, updatePackageInfo, notInstalled. run_member.
  split_tests; repeat split.
Qed.

Lemma parseDebFile_watcher (env : Env) (s : DebInstaller) :
  m_dependencyWatcher (snd (parseDebFile env s)) = m_dependencyWatcher s
  /\ futures (snd (parseDebFile env s)) = futures s
  /\ m_fileName (snd (parseDebFile env s)) = m_fileName s.
Proof.
  unfold parseDebFile. run_member.
  rewrite runDpkgCommand_eq. cbn.
  destruct (fst (helperResult _ _)); cbn; [|repeat split; reflexivity].
  rewrite !extractControlField_eq. cbn.
  split_tests; repeat split; reflexivity.
Qed.

(** *** The guard of [install] *)

(** C1. In every state where [valid] or [canInstall] is false, [install()]
    returns the object exactly as it was: the status keeps its value,
    nothing is appended to [statusDetails], no signal is emitted and no
    child is started. *)
Theorem install_guard_noop (s : DebInstaller) :
  m_isValid s = false \/ m_canInstall s = false ->
  exec install s = s.
Proof.
  intros H. unfold install. run_member.
  destruct H as [H | H]; rewrite H; cbn; [reflexivity|].
  destruct (m_isValid s); reflexivity.
Qed.

Lemma install_guard_noop_witness :
  (m_isValid memberInit = false \/ m_canInstall memberInit = false)
  /\ exec install memberInit = memberInit.
Proof.
  split; [left; reflexivity | apply (install_guard_noop memberInit); left; reflexivity].
Defined.

(** C7, as stated, fails: in a reachable state whose status is
    [Installing], a second [install()] is not a no-op, it clears the log. *)
Lemma install_while_installing_clears_log :
  m_status installingState = Installing
  /\ m_statusDetails installingState = "Unpacking foo"
  /\ m_statusDetails (exec install installingState) = ""
  /\ exec install installingState <> installingState.
Proof.
  repeat split; try reflexivity.
  intros H. apply (f_equal m_statusDetails) in H.
  vm_compute in H. discriminate H.
Qed.

(** C7, amended. [install()] has no guard on the status.  Called while the
    status is [Installing], it leaves the status [Installing] and emits no
    [statusChanged]; while the process object is still running it starts no
    second child ([QProcess::start] refuses); but when the archive is valid
    and admissible it clears the log and emits the status-message, log and
    switch-page signals. *)
Theorem install_while_installing (s : DebInstaller) :
  m_status s = Installing ->
  let s' := exec install s in
  m_status s' = Installing
  /\ (exists signals,
         emitted s' = (emitted s ++ signals)%list /\ ~ In statusChanged signals)
  /\ (processState (m_installProcess s) = Running ->
      spawned s' = spawned s /\ m_installProcess s' = m_installProcess s)
  /\ (m_isValid s = true -> m_canInstall s = true ->
      m_statusDetails s' = ""
      /\ emitted s' = (emitted s ++ [statusMessageChanged;
                                     statusDetailsTextChanged;
                                     requestSwitchToInstallPage])%list).
Proof.
  intros Hst. unfold install, setStatus, processStart. run_member.
  destruct (m_isValid s), (m_canInstall s); cbn;
    try (repeat split; auto; try discriminate;
         exists []; rewrite app_nil_r; auto).
  rewrite Hst. cbn.
  destruct (processState (m_installProcess s)) eqn:Hp; cbn;
    rewrite <- !app_assoc; cbn; repeat split; auto; try discriminate;
    try (eexists; split; [reflexivity|];
         cbn; intros [F|[F|[F|[]]]]; discriminate F).
Qed.

Lemma install_while_installing_witness :
  m_status installingState = Installing
  /\ m_statusDetails (exec install installingState) = "".
Proof.
  split; [reflexivity|].
  apply (install_while_installing installingState); reflexivity.
Defined.

(** *** Completion of the child *)

Lemma isSuccess_iff (exitCode : Z) (exitStatus : ExitStatus) :
  isSuccess exitCode exitStatus = true
  <-> exitStatus = NormalExit /\ exitCode = 0.
Proof.
  destruct exitStatus; cbn.
  - rewrite Z.eqb_eq. intuition.
  - intuition discriminate.
Qed.

Lemma setStatus_sets (status : Status) (s : DebInstaller) :
  m_status (exec (setStatus status) s) = status.
Proof.
  unfold setStatus. run_member.
  destruct (m_status s) eqn:E, status; cbn; auto.
Qed.

(** The handler by itself, on any state and any content of the buffers.
    [onInstallFinished]: a normal exit with code 0 makes the status
    [Succeeded] and [isInstalled] true and leaves the log alone; any other
    outcome makes the status [Error] and appends to the log, once, the
    buffered error output (the standard output when that is empty) behind
    the [Error:] marker, nothing being appended when both are empty.  The
    child that has ended cannot end again: a second exit event changes
    nothing. *)
Theorem onInstallFinished_outcome
  (s : DebInstaller) (exitCode : Z) (exitStatus : ExitStatus) :
  let s' := exec (onInstallFinished exitCode exitStatus) s in
  (if isSuccess exitCode exitStatus
   then m_status s' = Succeeded
        /\ m_isInstalled s' = true
        /\ m_statusDetails s' = m_statusDetails s
   else m_status s' = Error
        /\ m_isInstalled s' = m_isInstalled s
        /\ m_statusDetails s' =
             m_statusDetails s ++ errorBlock (remainingOutput (m_installProcess s)))
  /\ (forall exitCode' exitStatus',
        exec (childExits exitCode' exitStatus')
          (exec (childExits exitCode exitStatus) s)
        = exec (childExits exitCode exitStatus) s).
Proof.
  intros s'. split.
  - subst s'. unfold onInstallFinished, setStatus, readAllStandardError,
      readAllStandardOutput, errorBlock, remainingOutput.
    run_member.
    destruct (isSuccess exitCode exitStatus); cbn.
    + destruct (Status_eqb (m_status s) Succeeded) eqn:E; cbn; repeat split; auto.
      destruct (m_status s); try discriminate E; reflexivity.
    + destruct (Status_eqb (m_status s) Error) eqn:E; cbn;
        destruct (stderrBuffer (m_installProcess s)) eqn:Eerr; cbn;
        try (destruct (stdoutBuffer (m_installProcess s)) eqn:Eout; cbn);
        repeat split; auto;
        try (destruct (m_status s); try discriminate E; reflexivity);
        now rewrite append_empty_r.
  - intros c' e'.
    unfold childExits at 1. run_member.
    unfold childExits, onInstallFinished, setStatus, readAllStandardError,
      readAllStandardOutput.
    run_member.
    destruct (processState (m_installProcess s)) eqn:Hp; cbn.
    + rewrite Hp. reflexivity.
    + destruct (isSuccess exitCode exitStatus); cbn.
      * destruct (Status_eqb (m_status s) Succeeded); reflexivity.
      * destruct (Status_eqb (m_status s) Error); cbn;
          destruct (stderrBuffer (m_installProcess s)); cbn;
          try (destruct (stdoutBuffer (m_installProcess s)); cbn);
          reflexivity.
Qed.

(** The child of [installingState] exits with code 2 while an error line
    is still buffered. *)
Example onInstallFinished_sample :
  let s := set_m_installProcess
             (mkQProcess Running "" "dpkg: error processing foo")
             installingState in
  let s' := exec (childExits 2 NormalExit) s in
  m_status s' = Error
  /\ m_statusDetails s'
     = "Unpacking foo" ++ newlineString ++ "Error:" ++ newlineString
       ++ "dpkg: error processing foo"
  /\ m_statusDetails (exec (childExits 2 NormalExit) s') = m_statusDetails s'.
Proof. vm_compute. repeat split. Qed.

(** *** Selecting an archive *)

(** After a selection that passes the two guards, the selected file is the
    normalised path. *)
Lemma setFileName_selects (env : Env) (s : DebInstaller) (fileName : string) :
  QStr.isEmpty fileName || (m_fileName s =? fileName)%string = false ->
  mimeTypeForFile env
    (absoluteFilePath env (QStr.remove "file://" fileName))
  = debianMimeType ->
  m_fileName (exec (setFileName env fileName) s)
  = absoluteFilePath env (QStr.remove "file://" fileName).
Proof.
  intros Hg Hmime. unfold setFileName. run_member.
  rewrite Hg. cbn. rewrite Hmime. cbn.
  match goal with
  | |- context [parseDebFile env ?s0] =>
      pose proof (parseDebFile_watcher env s0) as (_ & _ & Hn);
      destruct (parseDebFile env s0) as [valid s1]
  end.
  cbn in Hn |- *. destruct valid; cbn; [|exact Hn].
  match goal with
  | |- context [updatePackageInfo env ?s0] =>
      pose proof (updatePackageInfo_untouched env s0)
        as (_ & _ & _ & _ & _ & _ & Hn');
      destruct (updatePackageInfo env s0) as [u s2]
  end.
  cbn in Hn' |- *. now rewrite Hn'.
Qed.

(** The guard on the stored path.  When the argument is the value of
    [m_fileName], as stored, [setFileName(fileName)] returns the object
    exactly as it was: no helper command is run, no check is queued and no
    signal is emitted. *)
Theorem setFileName_same_path_noop
  (env : Env) (s : DebInstaller) (fileName : string) :
  m_fileName s = fileName ->
  exec (setFileName env fileName) s = s.
Proof.
  intros H. unfold setFileName. run_member.
  rewrite H, String.eqb_refl, orb_true_r. reflexivity.
Qed.

Lemma setFileName_same_path_noop_witness :
  m_fileName selectedA = "/tmp/a.deb"
  /\ exec (setFileName (sampleEnv trialOk) "/tmp/a.deb") selectedA = selectedA.
Proof.
  split; [reflexivity|].
  apply (setFileName_same_path_noop (sampleEnv trialOk) selectedA "/tmp/a.deb").
  reflexivity.
Defined.

(** A path of a package that is its own normal form (no scheme, absolute)
    can be selected twice in a row from any state: the second call changes
    nothing. *)
Lemma setFileName_twice (env : Env) (s : DebInstaller) (fileName : string) :
  absoluteFilePath env (QStr.remove "file://" fileName) = fileName ->
  mimeTypeForFile env fileName = debianMimeType ->
  exec (setFileName env fileName) (exec (setFileName env fileName) s)
  = exec (setFileName env fileName) s.
Proof.
  intros Hnorm Hmime.
  destruct (QStr.isEmpty fileName || (m_fileName s =? fileName)%string) eqn:Hg.
  - assert (Hs : exec (setFileName env fileName) s = s).
    { unfold setFileName. run_member. now rewrite Hg. }
    now rewrite !Hs.
  - pose proof (setFileName_selects env s fileName Hg) as Hsel.
    rewrite Hnorm in Hsel. specialize (Hsel Hmime).
    set (s1 := exec (setFileName env fileName) s) in *.
    unfold setFileName at 1. run_member.
    now rewrite Hsel, String.eqb_refl, orb_true_r.
Qed.

(** The comparison is made with the argument as it was passed, before the
    scheme is stripped: selecting the same archive again through its URL is
    processed anew. *)
Example setFileName_url_again :
  let env := sampleEnv trialOk in
  let s := exec (setFileName env "file:///tmp/a.deb") (construct env) in
  m_fileName s = "/tmp/a.deb"
  /\ List.length (dpkgRuns s) = 7%nat
  /\ List.length (dpkgRuns (exec (setFileName env "file:///tmp/a.deb") s)) = 14%nat.
Proof. repeat split. Qed.

(** C4, as stated, fails: with [/tmp/a.deb] selected and valid, selecting a
    file that is not a package leaves [valid] true. *)
Lemma setFileName_wrong_mime_keeps_valid :
  let env := sampleEnv trialOk in
  mimeTypeForFile env
    (absoluteFilePath env (QStr.remove "file://" "/tmp/notes.txt"))
  <> debianMimeType
  /\ m_isValid selectedA = true
  /\ m_isValid (exec (setFileName env "/tmp/notes.txt") selectedA) = true.
Proof.
  cbv zeta. split; [|split; reflexivity].
  intros H. vm_compute in H. discriminate H.
Qed.

(** C4, amended. For a path whose sniffed MIME type is not the package
    type, [setFileName] leaves [valid] as it was before the call (so false
    when it was false), keeps the selected file and [canInstall], runs no
    helper command and queues no check.  The whole effect of the call is
    known: for a non-empty argument other than the selected file it sets
    the message to [Error: Not a valid Debian package] and emits
    [preInstallMessageChanged], and nothing else of the object changes; for
    an empty argument or the selected file nothing changes at all. *)
Theorem setFileName_wrong_mime
  (env : Env) (s : DebInstaller) (fileName : string) :
  mimeTypeForFile env
    (absoluteFilePath env (QStr.remove "file://" fileName))
  <> debianMimeType ->
  let s' := exec (setFileName env fileName) s in
  s' = (if QStr.isEmpty fileName || (m_fileName s =? fileName)%string
        then s else rejectedAsNotPackage s)
  /\ m_isValid s' = m_isValid s
  /\ (m_isValid s = false -> m_isValid s' = false)
  /\ m_canInstall s' = m_canInstall s
  /\ m_fileName s' = m_fileName s
  /\ dpkgRuns s' = dpkgRuns s
  /\ futures s' = futures s
  /\ m_dependencyWatcher s' = m_dependencyWatcher s.
Proof.
  intros H s'. subst s'. unfold setFileName, rejectedAsNotPackage. run_member.
  apply String.eqb_neq in H. rewrite H. cbn.
  destruct (QStr.isEmpty fileName || (m_fileName s =? fileName)%string);
    cbn; repeat split; auto.
Qed.

Lemma setFileName_wrong_mime_witness :
  let env := sampleEnv trialOk in
  mimeTypeForFile env
    (absoluteFilePath env (QStr.remove "file://" "/tmp/notes.txt"))
  <> debianMimeType
  /\ exec (setFileName env "/tmp/notes.txt") selectedA
     = rejectedAsNotPackage selectedA
  /\ m_isValid (exec (setFileName env "/tmp/notes.txt") memberInit)
     = m_isValid memberInit.
Proof.
  cbv zeta.
  assert (H : mimeTypeForFile (sampleEnv trialOk)
                (absoluteFilePath (sampleEnv trialOk)
                   (QStr.remove "file://" "/tmp/notes.txt"))
              <> debianMimeType)
    by (intros H; vm_compute in H; discriminate H).
  split; [exact H|]. split.
  - exact (proj1 (setFileName_wrong_mime (sampleEnv trialOk) selectedA
                    "/tmp/notes.txt" H)).
  - exact (proj1 (proj2 (setFileName_wrong_mime (sampleEnv trialOk) memberInit
                           "/tmp/notes.txt" H))).
Defined.

(** *** Helper commands that do not finish in time *)




(** *** Metadata of a newly selected archive *)

(** C6 fails on the code: [/tmp/a.deb] declares an installed size of
    100 KiB; [/tmp/b.deb], selected next, has no such field, is extracted
    and valid, and the exposed installed size is still that of
    [/tmp/a.deb]. *)
Lemma installedSize_kept_from_previous_archive :
  let env := sampleEnv trialOk in
  let sA := exec (setFileName env "/tmp/a.deb") (construct env) in
  let sB := exec (setFileName env "/tmp/b.deb") sA in
  m_installedSize (construct env) = ""
  /\ m_installedSize sA = "100.0 KB"
  /\ QStr.fieldCapture "Installed-Size" controlB = None
  /\ m_fileName sB = "/tmp/b.deb"
  /\ m_isValid sB = true
  /\ m_packageName sB = "bar"
  /\ m_version sB = "2.0"
  /\ m_installedSize sB = "100.0 KB".
Proof. repeat split. Qed.

(** The defect behind C6 in general: when the installed-size field of the
    archive being parsed is missing or not a number, [parseDebFile] leaves
    [m_installedSize] as it found it.  The field is read by the seventh
    helper run of the extraction. *)
Lemma parseDebFile_installedSize_kept (env : Env) (s : DebInstaller) :
  let text :=
    fieldValue env (List.length (dpkgRuns s) + 6) (m_fileName s)
      "Installed-Size" in
  QStr.isEmpty text = true \/ toDouble env text = None ->
  m_installedSize (snd (parseDebFile env s)) = m_installedSize s.
Proof.
  intros text H. unfold parseDebFile. run_member.
  rewrite runDpkgCommand_eq. cbn.
  destruct (fst (helperResult _ _)); cbn; [|reflexivity].
  rewrite !extractControlField_eq. cbn.
  destruct (QStr.indexOf _ _) as [[|n]|]; cbn;
    rewrite extractControlField_eq; cbn;
    rewrite !length_app; cbn [List.length];
    replace (List.length (dpkgRuns s) + 1 + 1 + 1 + 1 + 1 + 1)%nat
      with (List.length (dpkgRuns s) + 6)%nat by lia;
    fold text;
    (destruct H as [H|H];
     [rewrite H; reflexivity
     |destruct (QStr.isEmpty text); cbn; [reflexivity|rewrite H; reflexivity]]).
Qed.

(** *** Extracted control fields *)

Lemma fieldValue_singleTrimmedLine
  (env : Env) (n : nat) (fileName fieldName : string) :
  singleTrimmedLine (fieldValue env n fileName fieldName).
Proof.
  unfold fieldValue.
  destruct (helperResult _ _) as [ok out]; cbn.
  destruct ok; [|apply singleTrimmedLine_empty].
  unfold QStr.fieldCapture.
  destruct (QStr.afterFirst _ _); [|apply singleTrimmedLine_empty].
  apply trimmed_singleTrimmedLine, takeWhile_notNewline.
Qed.

Lemma untouched_cleanFields (s s' : DebInstaller) :
  untouched s s' -> cleanFields s -> cleanFields s'.
Proof.
  unfold untouched, cleanFields.
  intros (_ & _ & -> & -> & -> & -> & _). auto.
Qed.

Lemma parseDebFile_cleanFields (env : Env) (s : DebInstaller) :
  cleanFields s -> cleanFields (snd (parseDebFile env s)).
Proof.
  unfold cleanFields, parseDebFile. intros H. run_member.
  rewrite runDpkgCommand_eq. cbn.
  destruct (fst (helperResult _ _)); cbn; [|exact H].
  rewrite !extractControlField_eq. cbn.
  split_tests; split_conj; apply fieldValue_singleTrimmedLine.
Qed.

Lemma setFileName_cleanFields (env : Env) (fileName : string) (s : DebInstaller) :
  cleanFields s -> cleanFields (exec (setFileName env fileName) s).
Proof.
  intros H. unfold setFileName. run_member.
  destruct (QStr.isEmpty fileName || (m_fileName s =? fileName)%string);
    cbn; [exact H|].
  destruct (negb _); cbn; [exact H|].
  match goal with
  | |- context [parseDebFile env ?s0] =>
      assert (Hp : cleanFields (snd (parseDebFile env s0)))
        by (apply parseDebFile_cleanFields; exact H);
      destruct (parseDebFile env s0) as [valid s1]
  end.
  cbn in Hp |- *. destruct valid; cbn; [|exact Hp].
  match goal with
  | |- context [updatePackageInfo env ?s0] =>
      pose proof (updatePackageInfo_untouched env s0) as Hu;
      destruct (updatePackageInfo env s0) as [u s2]
  end.
  cbn in Hu |- *.
  destruct Hu as (_ & _ & Hn & Hv & Hm & Hh & _). cbn in Hn, Hv, Hm, Hh.
  unfold cleanFields in *. cbn. now rewrite Hn, Hv, Hm, Hh.
Qed.

Lemma taskRuns_cleanFields (env : Env) (future : nat) (s : DebInstaller) :
  cleanFields s -> cleanFields (exec (taskRuns env future) s).
Proof.
  intros H. unfold taskRuns. run_member.
  destruct (nth_error (futures s) future) as [[r|]|]; cbn; auto.
  pose proof (dependencyTask_untouched env s) as Hu.
  destruct (dependencyTask env s) as [r s1]. cbn in Hu |- *.
  destruct Hu as (_ & _ & Hn & Hv & Hm & Hh & _).
  unfold cleanFields in *. cbn. now rewrite Hn, Hv, Hm, Hh.
Qed.

Lemma step_cleanFields (env : Env) (e : Event) (s : DebInstaller) :
  cleanFields s -> cleanFields (exec (step env e) s).
Proof.
  intros H. destruct e; cbn [step].
  - now apply setFileName_cleanFields.
  - eapply untouched_cleanFields; [apply install_untouched|exact H].
  - now apply taskRuns_cleanFields.
  - eapply untouched_cleanFields; [apply futureFinished_untouched|exact H].
  - eapply untouched_cleanFields; [apply childWrites_untouched|exact H].
  - eapply untouched_cleanFields; [apply childWrites_untouched|exact H].
  - eapply untouched_cleanFields; [apply childExits_untouched|exact H].
Qed.

Lemma construct_cleanFields (env : Env) : cleanFields (construct env).
Proof.
  unfold construct, initializeApt. run_member.
  destruct (pkgInitConfig env), (cacheOpen env); cbn;
    repeat split; cbn; discriminate.
Qed.

(** C10. Whatever the helper command prints, the value
    [extractControlField] returns holds no line feed and neither starts
    nor ends with white space (trimming it again changes nothing); and in
    every state the object reaches from its construction, the exposed
    package name, version, maintainer and home page are such values. *)
Theorem extractControlField_single_trimmed_line (env : Env) :
  (forall fieldName s,
      singleTrimmedLine (fst (extractControlField env fieldName s)))
  /\ (forall events, cleanFields (run env events (construct env))).
Proof.
  split.
  - intros fieldName s. rewrite extractControlField_eq. cbn.
    apply fieldValue_singleTrimmedLine.
  - intros events.
    generalize (construct_cleanFields env).
    generalize (construct env) as s.
    induction events as [|e events IH]; intros s H; cbn; [exact H|].
    apply IH. now apply step_cleanFields.
Qed.

Example extractControlField_sample :
  let env := sampleEnv trialOk in
  QStr.fieldCapture "Package" controlA = Some "foo"
  /\ QStr.fieldCapture "Version" (" Version:   1.2.3  " ++ newlineString ++ " Depends: libc6")
     = Some "1.2.3  "
  /\ fst (extractControlField env "Version" (set_m_fileName "/tmp/a.deb" memberInit))
     = "1.2.3".
Proof. repeat split. Qed.

(** *** The watched future *)

Lemma untouched_watchesFrom (k : nat) (s s' : DebInstaller) :
  untouched s s' -> watchesFrom k s -> watchesFrom k s'.
Proof.
  unfold untouched, watchesFrom.
  intros (Hw & Hf & _) (w & H1 & H2 & H3).
  exists w. rewrite Hw, Hf. auto.
Qed.

(** A selection either leaves the watcher and the queue alone, or queues
    one task and makes the watcher watch it. *)
Lemma setFileName_watcher (env : Env) (fileName : string) (s : DebInstaller) :
  let s' := exec (setFileName env fileName) s in
  (m_dependencyWatcher s' = m_dependencyWatcher s /\ futures s' = futures s)
  \/ (m_dependencyWatcher s' = Some (List.length (futures s))
      /\ futures s' = (futures s ++ [None])%list).
Proof.
  unfold setFileName. run_member.
  destruct (QStr.isEmpty fileName || (m_fileName s =? fileName)%string);
    cbn; [left; split; reflexivity|].
  destruct (negb _); cbn; [left; split; reflexivity|].
  match goal with
  | |- context [parseDebFile env ?s0] =>
      pose proof (parseDebFile_watcher env s0) as (Hw & Hf & _);
      destruct (parseDebFile env s0) as [valid s1]
  end.
  cbn in Hw, Hf |- *. destruct valid; cbn; [|left; split; assumption].
  match goal with
  | |- context [updatePackageInfo env ?s0] =>
      pose proof (updatePackageInfo_untouched env s0) as (Hw' & Hf' & _);
      destruct (updatePackageInfo env s0) as [u s2]
  end.
  cbn in Hw', Hf' |- *. right. rewrite Hf', Hf. split; reflexivity.
Qed.

Lemma setNth_length {A : Type} (n : nat) (a : A) (l : list A) :
  List.length (setNth n a l) = List.length l.
Proof.
  revert n. induction l as [|x l IH]; intros [|n]; cbn; auto.
Qed.

Lemma taskRuns_watcher (env : Env) (future : nat) (s : DebInstaller) :
  let s' := exec (taskRuns env future) s in
  m_dependencyWatcher s' = m_dependencyWatcher s
  /\ List.length (futures s') = List.length (futures s).
Proof.
  unfold taskRuns. run_member.
  destruct (nth_error (futures s) future) as [[r|]|]; cbn; auto.
  pose proof (dependencyTask_untouched env s) as (Hw & Hf & _).
  destruct (dependencyTask env s) as [r s1]. cbn in Hw, Hf |- *.
  rewrite setNth_length, Hf. auto.
Qed.

Lemma step_watchesFrom (env : Env) (k : nat) (e : Event) (s : DebInstaller) :
  watchesFrom k s -> watchesFrom k (exec (step env e) s).
Proof.
  intros H. destruct e; cbn [step].
  - destruct H as (w & H1 & H2 & H3).
    destruct (setFileName_watcher env fileName s) as [[Hw Hf]|[Hw Hf]].
    + exists w. rewrite Hw, Hf. auto.
    + exists (List.length (futures s)). rewrite Hw, Hf.
      rewrite length_app. cbn. repeat split; lia.
  - eapply untouched_watchesFrom; [apply install_untouched|exact H].
  - destruct H as (w & H1 & H2 & H3).
    destruct (taskRuns_watcher env future s) as [Hw Hf].
    exists w. rewrite Hw, Hf. auto.
  - eapply untouched_watchesFrom; [apply futureFinished_untouched|exact H].
  - eapply untouched_watchesFrom; [apply childWrites_untouched|exact H].
  - eapply untouched_watchesFrom; [apply childWrites_untouched|exact H].
  - eapply untouched_watchesFrom; [apply childExits_untouched|exact H].
Qed.

Lemma run_watchesFrom
  (env : Env) (k : nat) (events : list Event) (s : DebInstaller) :
  watchesFrom k s -> watchesFrom k (run env events s).
Proof.
  revert s. induction events as [|e events IH]; intros s H; cbn; [exact H|].
  apply IH. now apply step_watchesFrom.
Qed.

Lemma run_app (env : Env) (events1 events2 : list Event) (s : DebInstaller) :
  run env (events1 ++ events2) s = run env events2 (run env events1 s).
Proof.
  revert s. induction events1 as [|e events1 IH]; intros s; cbn; auto.
Qed.

(** The completion of a future the watcher does not watch is dropped. *)
Lemma futureFinished_not_watched (future : nat) (s : DebInstaller) :
  m_dependencyWatcher s <> Some future ->
  exec (futureFinished future) s = s.
Proof.
  intros H. unfold futureFinished. run_member.
  destruct (m_dependencyWatcher s) as [w|]; [|reflexivity].
  destruct (Nat.eqb w future) eqn:E; [|reflexivity].
  apply Nat.eqb_eq in E. subst w. now destruct H.
Qed.

(** The completion of the watched future sets [canInstall] to its result. *)
Lemma futureFinished_watched (future : nat) (result : bool) (s : DebInstaller) :
  m_dependencyWatcher s = Some future ->
  nth_error (futures s) future = Some (Some result) ->
  m_canInstall (exec (futureFinished future) s) = result.
Proof.
  intros Hw Hr. unfold futureFinished, dependencyFinished. run_member.
  rewrite Hw, Nat.eqb_refl, Hr. cbn.
  destruct (negb result && QStr.isEmpty (m_preInstallMessage s)); reflexivity.
Qed.

Lemma step_futures_length (env : Env) (e : Event) (s : DebInstaller) :
  (List.length (futures s) <= List.length (futures (exec (step env e) s)))%nat.
Proof.
  destruct e; cbn [step].
  - destruct (setFileName_watcher env fileName s) as [[_ Hf]|[_ Hf]];
      rewrite Hf; [lia|]. rewrite length_app. lia.
  - destruct (install_untouched s) as (_ & Hf & _). rewrite Hf. lia.
  - destruct (taskRuns_watcher env future s) as [_ Hf]. rewrite Hf. lia.
  - destruct (futureFinished_untouched future s) as (_ & Hf & _).
    rewrite Hf. lia.
  - destruct (childWrites_untouched false data s) as (_ & Hf & _).
    rewrite Hf. lia.
  - destruct (childWrites_untouched true data s) as (_ & Hf & _).
    rewrite Hf. lia.
  - destruct (childExits_untouched exitCode exitStatus s) as (_ & Hf & _).
    rewrite Hf. lia.
Qed.

Lemma run_futures_length (env : Env) (events : list Event) (s : DebInstaller) :
  (List.length (futures s) <= List.length (futures (run env events s)))%nat.
Proof.
  revert s. induction events as [|e events IH]; intros s; cbn; [lia|].
  pose proof (step_futures_length env e s). pose proof (IH (exec (step env e) s)).
  lia.
Qed.

(** Delivery of a stale completion.  Archive A is selected and its check
    queued; anything may happen in between (the check may run, other events
    may arrive); then archive B is selected and its check queued.  Whatever happens afterwards, when
    the completion of A's check reaches the object it changes nothing:
    neither [canInstall] nor anything else.  Right after B's selection the
    watcher watches B's check, and while it does, the completion of B's
    check makes its result the value of [canInstall]; A's completion
    arriving after that leaves this value in place. *)
Lemma stale_completion_dropped
  (env : Env) (s0 : DebInstaller) (pathA pathB : string)
  (between : list Event) :
  let sA := exec (setFileName env pathA) s0 in
  let sA' := run env between sA in
  let sB := exec (setFileName env pathB) sA' in
  let checkA := List.length (futures s0) in
  let checkB := List.length (futures sA') in
  List.length (futures sA) = S (List.length (futures s0)) ->
  List.length (futures sB) = S (List.length (futures sA')) ->
  m_dependencyWatcher sB = Some checkB
  /\ forall events,
      let s := run env events sB in
      exec (futureFinished checkA) s = s
      /\ forall result,
          m_dependencyWatcher s = Some checkB ->
          nth_error (futures s) checkB = Some (Some result) ->
          m_canInstall (exec (futureFinished checkB) s) = result
          /\ m_canInstall
               (exec (futureFinished checkA) (exec (futureFinished checkB) s))
             = result.
Proof.
  intros sA sA' sB checkA checkB HA HB.
  assert (Hlt : (checkA < checkB)%nat).
  { pose proof (run_futures_length env between sA) as Hle.
    fold sA' in Hle. subst checkA checkB. lia. }
  assert (Hw2 : m_dependencyWatcher sB = Some checkB).
  { destruct (setFileName_watcher env pathB sA') as [[_ Hf]|[Hw _]].
    - fold sB in Hf. rewrite Hf in HB. lia.
    - exact Hw. }
  assert (Hfrom : watchesFrom checkB sB).
  { exists checkB. repeat split; [exact Hw2|lia|]. rewrite HB. subst checkB. lia. }
  assert (Hdrop : forall events,
             exec (futureFinished checkA) (run env events sB)
             = run env events sB).
  { intros events. apply futureFinished_not_watched.
    destruct (run_watchesFrom env checkB events sB Hfrom) as (w & H1 & H2 & _).
    rewrite H1. intros E. injection E as E. lia. }
  split; [exact Hw2|].
  intros events s. split; [apply Hdrop|].
  intros result Hw Hr.
  pose proof (futureFinished_watched checkB result s Hw Hr) as Hres.
  split; [exact Hres|].
  change (exec (futureFinished checkB) s)
    with (run env [FutureFinished checkB] s).
  subst s. rewrite <- run_app, Hdrop, run_app. exact Hres.
Qed.


(** *** Byte sizes *)

(** The loop stops at the first unit at which the magnitude is below 1024,
    or at unit 8. *)
Lemma scaleLoop_spec (turns : nat) (size : Dbl.double) (unit : Z) :
  unit + Z.of_nat turns = 8 ->
  exists k : nat,
    (k <= turns)%nat
    /\ scaleLoop turns size unit = (divTimes k size, unit + Z.of_nat k)
    /\ (forall j, (j < k)%nat -> atLeast1024 (divTimes j size) = true)
    /\ (unit + Z.of_nat k < 8 -> atLeast1024 (divTimes k size) = false).
Proof.
  revert size unit.
  induction turns as [|turns IH]; intros size unit Hu.
  - exists 0%nat. cbn. repeat split; auto; try lia.
    now rewrite Z.add_0_r.
  - cbn [scaleLoop]. fold (atLeast1024 size).
    destruct (atLeast1024 size) eqn:E; cbn [andb].
    + destruct (unit <? 8) eqn:E8; [|apply Z.ltb_ge in E8; lia].
      destruct (IH (Dbl.div size multiplier) (unit + 1)) as (k & H1 & H2 & H3 & H4);
        [lia|].
      exists (S k). repeat split.
      * lia.
      * rewrite H2. cbn [divTimes]. f_equal. lia.
      * intros [|j] Hj; cbn [divTimes]; [exact E|]. apply H3. lia.
      * intros Hlt. cbn [divTimes]. apply H4. lia.
    + exists 0%nat. cbn. repeat split; auto; try lia.
      now rewrite Z.add_0_r.
Qed.

Lemma unitSuffix_nth (k : nat) :
  (k <= 8)%nat -> unitSuffix (Z.of_nat k) = Some (nth k unitNames "").
Proof.
  intros H.
  do 9 (destruct k as [|k]; [reflexivity|]). lia.
Qed.

Lemma multiplier_eq : multiplier = S754_finite false p52 (-42).
Proof. reflexivity. Qed.

Lemma fexp_normal (x : Z) : -1021 <= x -> fexp Dbl.prec Dbl.emax x = x - 53.
Proof.
  intros H. unfold fexp, emin, Dbl.prec, Dbl.emax. lia.
Qed.

Lemma div_core_1024 (m : positive) (e : Z) :
  digits2_pos m = 53%positive ->
  -42 <= e ->
  SFdiv_core_binary Dbl.prec Dbl.emax (Z.pos m) e (Z.pos p52) (-42)
  = (Z.pos m~0, e - 11, loc_Exact).
Proof.
  intros Hd He. unfold SFdiv_core_binary.
  cbn [Zdigits2]. rewrite Hd.
  change (digits2_pos p52) with 53%positive.
  replace (Z.pos 53 + e - (Z.pos 53 + -42)) with (e + 42) by lia.
  rewrite fexp_normal by lia.
  replace (Z.min (e + 42 - 53) (e - -42)) with (e - 11) by lia.
  replace (e - -42 - (e - 11)) with 53 by lia.
  change (IntDef.Z.shiftl (Z.pos m) 53) with (Z.shiftl (Z.pos m) 53).
  change (IntDef.Z.div_eucl (Z.shiftl (Z.pos m) 53) (Z.pos p52))
    with (Z.div_eucl (Z.shiftl (Z.pos m) 53) (Z.pos p52)).
  rewrite Z.shiftl_mul_pow2 by lia.
  pose proof (Z_div_mod (Z.pos m * 2 ^ 53) (Z.pos p52) eq_refl) as H.
  destruct (Z.div_eucl (Z.pos m * 2 ^ 53) (Z.pos p52)) as [q r].
  destruct H as [H1 H2].
  destruct (Z.div_mod_unique (Z.pos p52) q (Z.pos m~0) r 0) as [Hq Hr].
  - left. lia.
  - left. unfold p52. lia.
  - rewrite <- H1. unfold p52. lia.
  - subst q r. reflexivity.
Qed.

Lemma shr_fexp_one (m : positive) (e : Z) :
  digits2_pos m = 53%positive ->
  -1031 <= e ->
  shr_fexp Dbl.prec Dbl.emax (Z.pos m~0) (e - 11) loc_Exact
  = ({| shr_m := Z.pos m; shr_r := false; shr_s := false |}, e - 10).
Proof.
  intros Hd He. unfold shr_fexp.
  cbn [Zdigits2 digits2_pos]. rewrite Hd.
  change (Z.pos (Pos.succ 53)) with 54.
  rewrite fexp_normal by lia.
  replace (54 + (e - 11) - 53 - (e - 11)) with 1 by lia.
  cbn. f_equal. lia.
Qed.

Lemma shr_fexp_none (m : positive) (e : Z) :
  digits2_pos m = 53%positive ->
  -1074 <= e ->
  shr_fexp Dbl.prec Dbl.emax (Z.pos m) e loc_Exact
  = ({| shr_m := Z.pos m; shr_r := false; shr_s := false |}, e).
Proof.
  intros Hd He. unfold shr_fexp.
  cbn [Zdigits2]. rewrite Hd.
  rewrite fexp_normal by lia.
  replace (53 + e - 53 - e) with 0 by lia.
  reflexivity.
Qed.

(** A normal double of magnitude 1024 or more keeps its significand when
    divided by 1024.0; its exponent drops by 10. *)
Lemma div_1024_exact (s : bool) (m : positive) (e : Z) :
  digits2_pos m = 53%positive ->
  -42 <= e <= 971 ->
  Dbl.div (S754_finite s m e) multiplier = S754_finite s m (e - 10).
Proof.
  intros Hd He. rewrite multiplier_eq. unfold Dbl.div, SFdiv.
  rewrite div_core_1024 by (auto; lia).
  unfold binary_round_aux.
  rewrite shr_fexp_one by (auto; lia).
  cbn [shr_m loc_of_shr_record round_nearest_even].
  rewrite shr_fexp_none by (auto; lia).
  cbn [shr_m].
  replace (e - 10 <=? Dbl.emax - Dbl.prec) with true
    by (symmetry; apply Z.leb_le; unfold Dbl.emax, Dbl.prec; lia).
  now rewrite xorb_false_r.
Qed.

Lemma digits2_pos_bounds (m : positive) :
  2 ^ (Z.pos (digits2_pos m) - 1) <= Z.pos m < 2 ^ Z.pos (digits2_pos m).
Proof.
  induction m as [m IH|m IH|]; cbn [digits2_pos].
  - rewrite Pos2Z.inj_succ.
    replace (Z.succ (Z.pos (digits2_pos m)) - 1)
      with (Z.succ (Z.pos (digits2_pos m) - 1)) by lia.
    rewrite !Z.pow_succ_r by lia. lia.
  - rewrite Pos2Z.inj_succ.
    replace (Z.succ (Z.pos (digits2_pos m)) - 1)
      with (Z.succ (Z.pos (digits2_pos m) - 1)) by lia.
    rewrite !Z.pow_succ_r by lia. lia.
  - cbn. lia.
Qed.

Lemma atLeast1024_normal (s : bool) (m : positive) (e : Z) :
  digits2_pos m = 53%positive ->
  atLeast1024 (S754_finite s m e) = (-42 <=? e).
Proof.
  intros Hd. unfold atLeast1024, Dbl.geb, Dbl.qAbs.
  rewrite multiplier_eq. unfold SFleb, SFabs, SFcompare.
  change (IntDef.Z.compare (-42) e) with (-42 ?= e).
  destruct (Z.compare_spec (-42) e) as [E|E|E].
  - subst e.
    pose proof (digits2_pos_bounds m) as Hb. rewrite Hd in Hb.
    change (PosDef.Pos.compare_cont Eq p52 m) with (p52 ?= m)%positive.
    destruct (Pos.compare_spec p52 m) as [E|E|E]; cbn; auto.
    unfold p52 in E. apply Pos2Z.pos_lt_pos in E. cbn in Hb. lia.
  - symmetry. apply Z.leb_le. lia.
  - symmetry. apply Z.leb_gt. lia.
Qed.

Lemma scaleLoop_normal
  (turns : nat) (s : bool) (m : positive) (e unit : Z) :
  digits2_pos m = 53%positive ->
  e <= 971 ->
  unit + Z.of_nat turns = 8 ->
  scaleLoop turns (S754_finite s m e) unit
  = (S754_finite s m (e - 10 * divisions turns e), unit + divisions turns e).
Proof.
  intros Hd. revert e unit.
  induction turns as [|turns IH]; intros e unit He Hu.
  - unfold divisions. cbn [scaleLoop].
    replace (Z.min (Z.of_nat 0) (Z.max 0 ((e + 52) / 10))) with 0 by lia.
    f_equal; [f_equal|]; lia.
  - cbn [scaleLoop]. fold (atLeast1024 (S754_finite s m e)).
    rewrite (atLeast1024_normal s m e Hd).
    assert (Hdiv : (e - 10 + 52) / 10 = (e + 52) / 10 - 1).
    { replace (e - 10 + 52) with (e + 52 + (-1) * 10) by lia.
      rewrite Z.div_add by lia. lia. }
    destruct (Z.leb_spec (-42) e) as [E|E]; cbn [andb].
    + destruct (Z.ltb_spec unit 8) as [E8|E8]; [|lia].
      rewrite div_1024_exact by (auto; lia).
      rewrite IH by lia.
      assert (1 <= (e + 52) / 10) by (apply Z.div_le_lower_bound; lia).
      unfold divisions. rewrite Hdiv.
      replace (Z.min (Z.of_nat (S turns)) (Z.max 0 ((e + 52) / 10)))
        with (1 + Z.min (Z.of_nat turns) (Z.max 0 ((e + 52) / 10 - 1))) by lia.
      f_equal; [f_equal|]; lia.
    + assert ((e + 52) / 10 <= 0).
      { assert ((e + 52) / 10 < 1) by (apply Z.div_lt_upper_bound; lia). lia. }
      unfold divisions.
      replace (Z.min (Z.of_nat (S turns)) (Z.max 0 ((e + 52) / 10))) with 0
        by lia.
      f_equal; [f_equal|]; lia.
Qed.

(** On a normal double [m * 2^e] (53 significant bits) the unit is
    [(e + 52) / 10], the whole part of the base-1024 logarithm of the
    magnitude, between 0 and 8; the number printed is exactly the size
    divided by that power of 1024. *)
Lemma formatByteSize_normal
  (s : bool) (m : positive) (e : Z) (precision : Z) :
  digits2_pos m = 53%positive ->
  e <= 971 ->
  let unit := Z.min 8 (Z.max 0 ((e + 52) / 10)) in
  0 <= unit <= 8
  /\ formatByteSize (S754_finite s m e) precision
     = Dbl.number (S754_finite s m (e - 10 * unit))
         (if unit =? 0 then 0 else precision)
       ++ nth (Z.to_nat unit) unitNames "".
Proof.
  intros Hd He unit.
  assert (Hu : 0 <= unit <= 8) by (subst unit; lia).
  split; [exact Hu|].
  unfold formatByteSize.
  rewrite (scaleLoop_normal 8 s m e 0 Hd He eq_refl).
  change (divisions 8 e) with unit. cbn [Z.add].
  assert (Hs : unitSuffix unit = Some (nth (Z.to_nat unit) unitNames "")).
  { rewrite <- (Z2Nat.id unit) at 1 by lia. apply unitSuffix_nth. lia. }
  now rewrite Hs.
Qed.

(** C9. [formatByteSize] divides the size by 1024 as long as its magnitude
    is at least 1024, at most 8 times.  The unit is therefore the largest
    one the size reaches step by step: every smaller unit still shows a
    magnitude of 1024 or more, and below the last unit (YB) the printed
    magnitude is under 1024.  On a normal double [m * 2^e] the unit is
    [(e + 52) / 10] capped at 8 and the number printed is exactly the size
    divided by that power of 1024.  The number is printed with [precision]
    decimals (the controller passes 1), with none when the unit is the
    byte.  In particular 0 gives [0 B], 1024 gives [1.0 KB], 1536 gives
    [1.5 KB], 1024^8 gives [1.0 YB] and 1024^9 gives [1024.0 YB]. *)
Theorem formatByteSize_units :
  (forall size precision,
      exists k : nat,
        (k <= 8)%nat
        /\ formatByteSize size precision
           = Dbl.number (divTimes k size)
               (if (k =? 0)%nat then 0 else precision)
             ++ nth k unitNames ""
        /\ (forall j, (j < k)%nat -> atLeast1024 (divTimes j size) = true)
        /\ ((k < 8)%nat -> atLeast1024 (divTimes k size) = false))
  /\ (forall s m e precision,
        digits2_pos m = 53%positive ->
        e <= 971 ->
        let unit := Z.min 8 (Z.max 0 ((e + 52) / 10)) in
        formatByteSize (S754_finite s m e) precision
        = Dbl.number (S754_finite s m (e - 10 * unit))
            (if unit =? 0 then 0 else precision)
          ++ nth (Z.to_nat unit) unitNames "")
  /\ formatByteSize (Dbl.ofZ 0) 1 = "0 B"
  /\ formatByteSize (Dbl.ofZ 1024) 1 = "1.0 KB"
  /\ formatByteSize (Dbl.ofZ 1536) 1 = "1.5 KB"
  /\ formatByteSize (Dbl.ofZ (1024 ^ 8)) 1 = "1.0 YB"
  /\ formatByteSize (Dbl.ofZ (1024 ^ 9)) 1 = "1024.0 YB".
Proof.
  split; [|split; [|repeat split; vm_compute; reflexivity]].
  - intros size precision.
    destruct (scaleLoop_spec 8 size 0 eq_refl) as (k & H1 & H2 & H3 & H4).
    exists k. split; [exact H1|].
    split; [|split; [exact H3|intros; apply H4; lia]].
    unfold formatByteSize. rewrite H2. cbn [Z.add].
    rewrite (unitSuffix_nth k H1).
    replace (Z.of_nat k =? 0) with (k =? 0)%nat; [reflexivity|].
    destruct k; reflexivity.
  - intros s m e precision Hd He.
    apply (formatByteSize_normal s m e precision Hd He).
Qed.

Lemma formatByteSize_units_witness :
  Dbl.ofZ 1536 = S754_finite false 6755399441055744 (-42)
  /\ digits2_pos 6755399441055744 = 53%positive
  /\ -42 <= 971
  /\ formatByteSize (S754_finite false 6755399441055744 (-42)) 1
     = Dbl.number (S754_finite false 6755399441055744 (-52)) 1 ++ " KB".
Proof.
  split; [reflexivity|]. split; [reflexivity|]. split; [lia|].
  apply (proj1 (proj2 formatByteSize_units)
           false 6755399441055744%positive (-42) 1); [reflexivity|lia].
Defined.


(* ================================================================== *)
(** ** Further properties of the code *)
(* ================================================================== *)

(** *** [parseDebFile] *)

Lemma hasChar_indexOf (c : ascii) (s : string) :
  QStr.hasChar c s = false -> QStr.indexOf c s = None.
Proof.
  induction s as [|d s IH]; cbn; [reflexivity|].
  intros H. apply orb_false_iff in H as [Hd Hs].
  rewrite Hd, (IH Hs). reflexivity.
Qed.

Lemma fieldValue_indexOf
  (env : Env) (n : nat) (fileName fieldName : string) :
  QStr.indexOf QStr.newline (fieldValue env n fileName fieldName) = None.
Proof.
  apply hasChar_indexOf, fieldValue_singleTrimmedLine.
Qed.

(** X1. When the first command of the extraction fails (it does not finish, or
    exits with a code other than 0), [parseDebFile] returns false after
    that single run and leaves every member as it was: the metadata of the
    archive selected before stays in place. *)
Theorem parseDebFile_first_command_fails (env : Env) (s : DebInstaller) :
  (forall out,
      dpkg env (List.length (dpkgRuns s)) ["-I"; m_fileName s]
      <> Finished out 0) ->
  parseDebFile env s
  = (false, set_dpkgRuns (dpkgRuns s ++ [["-I"; m_fileName s]]) s).
Proof.
  intros H. unfold parseDebFile. run_member.
  rewrite runDpkgCommand_eq. cbn.
  destruct (dpkg env (List.length (dpkgRuns s)) ["-I"; m_fileName s])
    as [out code|] eqn:E; cbn; [|reflexivity].
  destruct (Z.eqb_spec code 0) as [->|Hc]; cbn; [|reflexivity].
  now destruct (H out).
Qed.

Lemma parseDebFile_first_command_fails_witness :
  (forall out,
      dpkg stalledEnv (List.length (dpkgRuns memberInit))
        ["-I"; m_fileName memberInit] <> Finished out 0)
  /\ fst (parseDebFile stalledEnv memberInit) = false.
Proof.
  assert (H : forall out,
             dpkg stalledEnv (List.length (dpkgRuns memberInit))
               ["-I"; m_fileName memberInit] <> Finished out 0)
    by (intros out E; discriminate E).
  split; [exact H|].
  now rewrite (parseDebFile_first_command_fails stalledEnv memberInit H).
Defined.

(** X2. When the first command succeeds, [parseDebFile] runs the six field
    queries after it, on the same file; name, version, maintainer,
    description and home page become what those runs yield (the
    description as extracted: it holds no line feed, so it is never cut);
    the installed size changes only for a numeric field; and the result
    tells whether the package name is non-empty. *)
Theorem parseDebFile_first_command_succeeds
  (env : Env) (s : DebInstaller) (out : string) :
  dpkg env (List.length (dpkgRuns s)) ["-I"; m_fileName s] = Finished out 0 ->
  let n := List.length (dpkgRuns s) in
  let file := m_fileName s in
  let field := fun k name => fieldValue env (n + k) file name in
  let s' := snd (parseDebFile env s) in
  fst (parseDebFile env s) = negb (QStr.isEmpty (field 1%nat "Package"))
  /\ dpkgRuns s' = (dpkgRuns s ++ extractionRuns file)%list
  /\ m_packageName s' = field 1%nat "Package"
  /\ m_version s' = field 2%nat "Version"
  /\ m_maintainer s' = field 3%nat "Maintainer"
  /\ m_description s' = field 4%nat "Description"
  /\ m_homePage s' = field 5%nat "Homepage"
  /\ m_installedSize s'
     = installedSizeOf env (field 6%nat "Installed-Size") (m_installedSize s)
  /\ m_fileName s' = file.
Proof.
  intros H n file field s'. subst s'.
  unfold parseDebFile. run_member.
  rewrite runDpkgCommand_eq. cbn. rewrite H. cbn.
  rewrite !extractControlField_eq. cbn.
  rewrite fieldValue_indexOf. cbn.
  rewrite extractControlField_eq. cbn.
  rewrite !length_app. cbn [List.length]. fold n.
  replace (n + 1 + 1)%nat with (n + 2)%nat by lia.
  replace (n + 2 + 1)%nat with (n + 3)%nat by lia.
  replace (n + 3 + 1)%nat with (n + 4)%nat by lia.
  replace (n + 4 + 1)%nat with (n + 5)%nat by lia.
  replace (n + 5 + 1)%nat with (n + 6)%nat by lia.
  fold file. unfold installedSizeOf, field, extractionRuns.
  destruct (QStr.isEmpty (fieldValue env (n + 6) file "Installed-Size")); cbn;
    [|destruct (toDouble env _); cbn];
    rewrite <- !app_assoc; cbn; repeat split.
Qed.

Lemma parseDebFile_first_command_succeeds_witness :
  let env := sampleEnv trialOk in
  let s := set_m_fileName "/tmp/a.deb" memberInit in
  dpkg env (List.length (dpkgRuns s)) ["-I"; m_fileName s]
  = Finished controlA 0
  /\ m_version (snd (parseDebFile env s)) = "1.2.3"
  /\ m_installedSize (snd (parseDebFile env s)) = "100.0 KB".
Proof.
  cbv zeta.
  assert (H : dpkg (sampleEnv trialOk)
                (List.length (dpkgRuns (set_m_fileName "/tmp/a.deb" memberInit)))
                ["-I"; m_fileName (set_m_fileName "/tmp/a.deb" memberInit)]
              = Finished controlA 0) by reflexivity.
  split; [exact H|].
  destruct (parseDebFile_first_command_succeeds (sampleEnv trialOk)
              (set_m_fileName "/tmp/a.deb" memberInit) controlA H)
    as (_ & _ & _ & Hv & _ & _ & _ & Hs & _).
  split; [rewrite Hv|rewrite Hs]; reflexivity.
Defined.

(** *** What each side leaves to the other *)

Lemma install_selectionKept (s : DebInstaller) :
  selectionKept s (exec install s).
Proof.
  unfold selectionKept, install, setStatus, processStart. run_member.
  split_tests; repeat split.
Qed.

Lemma childWrites_selectionKept
  (toError : bool) (data : string) (s : DebInstaller) :
  selectionKept s (exec (childWrites toError data) s).
Proof.
  unfold selectionKept, childWrites, onInstallOutput, readAllStandardOutput,
    readAllStandardError.
  run_member. split_tests; repeat split.
Qed.

Lemma childExits_selectionKept
  (exitCode : Z) (exitStatus : ExitStatus) (s : DebInstaller) :
  selectionKept s (exec (childExits exitCode exitStatus) s).
Proof.
  unfold selectionKept, childExits, onInstallFinished, setStatus,
    readAllStandardOutput, readAllStandardError.
  run_member. split_tests; repeat split.
Qed.

Lemma sessionKept_refl (s : DebInstaller) : sessionKept s s.
Proof. repeat split. Qed.

Lemma sessionKept_trans (s1 s2 s3 : DebInstaller) :
  sessionKept s1 s2 -> sessionKept s2 s3 -> sessionKept s1 s3.
Proof. unfold sessionKept. intuition congruence. Qed.

Lemma parseDebFile_sessionKept (env : Env) (s : DebInstaller) :
  sessionKept s (snd (parseDebFile env s)).
Proof.
  unfold sessionKept, parseDebFile. run_member.
  rewrite runDpkgCommand_eq. cbn.
  destruct (fst (helperResult _ _)); cbn; [|repeat split; reflexivity].
  rewrite !extractControlField_eq. cbn.
  split_tests; repeat split; reflexivity.
Qed.

Lemma updatePackageInfo_sessionKept (env : Env) (s : DebInstaller) :
  sessionKept s (snd (updatePackageInfo env s)).
Proof.
  unfold sessionKept, updatePackageInfo, notInstalled. run_member.
  split_tests; repeat split.
Qed.

Lemma dependencyTask_sessionKept (env : Env) (s : DebInstaller) :
  sessionKept s (snd (dependencyTask env s)).
Proof.
  unfold sessionKept, dependencyTask, checkDependencies, checkConflicts,
    checkBreaksSystem.
  run_member. split_tests; repeat split.
Qed.

Lemma setFileName_sessionKept (env : Env) (fileName : string) (s : DebInstaller) :
  sessionKept s (exec (setFileName env fileName) s).
Proof.
  unfold setFileName. run_member.
  destruct (QStr.isEmpty fileName || (m_fileName s =? fileName)%string);
    cbn; [apply sessionKept_refl|].
  destruct (negb _); cbn; [repeat split|].
  match goal with
  | |- context [parseDebFile env ?s0] =>
      pose proof (parseDebFile_sessionKept env s0) as Hp;
      destruct (parseDebFile env s0) as [valid s1]
  end.
  cbn in Hp |- *. destruct valid; cbn.
  - match goal with
    | |- context [updatePackageInfo env ?s0] =>
        pose proof (updatePackageInfo_sessionKept env s0) as Hu;
        destruct (updatePackageInfo env s0) as [u s2]
    end.
    cbn in Hu |- *. unfold sessionKept in *. cbn in *.
    intuition congruence.
  - unfold sessionKept in *. cbn in *. intuition congruence.
Qed.

Lemma taskRuns_sessionKept (env : Env) (future : nat) (s : DebInstaller) :
  sessionKept s (exec (taskRuns env future) s).
Proof.
  unfold taskRuns. run_member.
  destruct (nth_error (futures s) future) as [[r|]|]; cbn;
    try apply sessionKept_refl.
  pose proof (dependencyTask_sessionKept env s) as Hd.
  destruct (dependencyTask env s) as [r s1]. cbn in Hd |- *.
  unfold sessionKept in *. cbn. exact Hd.
Qed.

Lemma futureFinished_sessionKept (future : nat) (s : DebInstaller) :
  sessionKept s (exec (futureFinished future) s).
Proof.
  unfold sessionKept, futureFinished, dependencyFinished. run_member.
  split_tests; repeat split.
Qed.

(** *** The install session over whole runs *)

Lemma sessionKept_sessionConsistent (s s' : DebInstaller) :
  sessionKept s s' -> sessionConsistent s -> sessionConsistent s'.
Proof.
  unfold sessionKept, sessionConsistent.
  intros (-> & -> & -> & _) H. exact H.
Qed.

Lemma install_sessionConsistent (s : DebInstaller) :
  sessionConsistent s -> sessionConsistent (exec install s).
Proof.
  unfold sessionConsistent. intros (H1 & H2 & H3 & H4).
  unfold install, setStatus, processStart. run_member.
  destruct (m_isValid s), (m_canInstall s); cbn; auto.
  destruct (Status_eqb (m_status s) Installing) eqn:E; cbn;
    destruct (processState (m_installProcess s)) eqn:Hp; cbn;
    repeat split; auto; try discriminate;
    try (intros _; destruct (m_status s); try discriminate E; reflexivity);
    try (intros HB; rewrite HB in E; discriminate E);
    try (intros _; destruct (spawned s); discriminate).
Qed.

Lemma childWrites_sessionConsistent
  (toError : bool) (data : string) (s : DebInstaller) :
  sessionConsistent s -> sessionConsistent (exec (childWrites toError data) s).
Proof.
  unfold sessionConsistent. intros (H1 & H2 & H3 & H4).
  unfold childWrites, onInstallOutput, readAllStandardOutput,
    readAllStandardError.
  run_member.
  destruct (processState (m_installProcess s)) eqn:Hp; cbn;
    [rewrite Hp; auto|].
  rewrite H3, H4. destruct toError, data; cbn; repeat split; auto.
Qed.

Lemma childExits_sessionConsistent
  (exitCode : Z) (exitStatus : ExitStatus) (s : DebInstaller) :
  sessionConsistent s ->
  sessionConsistent (exec (childExits exitCode exitStatus) s).
Proof.
  unfold sessionConsistent. intros (H1 & H2 & H3 & H4).
  unfold childExits, onInstallFinished, setStatus, readAllStandardOutput,
    readAllStandardError.
  run_member.
  destruct (processState (m_installProcess s)) eqn:Hp; cbn;
    [rewrite Hp; auto|].
  destruct (isSuccess exitCode exitStatus); cbn;
    rewrite (H1 eq_refl), ?H3, ?H4; cbn;
    repeat split; auto; discriminate.
Qed.

Lemma step_sessionConsistent (env : Env) (e : Event) (s : DebInstaller) :
  sessionConsistent s -> sessionConsistent (exec (step env e) s).
Proof.
  intros H. destruct e; cbn [step].
  - eapply sessionKept_sessionConsistent; [apply setFileName_sessionKept|exact H].
  - now apply install_sessionConsistent.
  - eapply sessionKept_sessionConsistent; [apply taskRuns_sessionKept|exact H].
  - eapply sessionKept_sessionConsistent; [apply futureFinished_sessionKept|exact H].
  - now apply childWrites_sessionConsistent.
  - now apply childWrites_sessionConsistent.
  - now apply childExits_sessionConsistent.
Qed.

Lemma construct_sessionConsistent (env : Env) :
  sessionConsistent (construct env).
Proof.
  unfold sessionConsistent, construct, initializeApt. run_member.
  destruct (pkgInitConfig env), (cacheOpen env); cbn;
    repeat split; auto; discriminate.
Qed.

Lemma run_sessionConsistent
  (env : Env) (events : list Event) (s : DebInstaller) :
  sessionConsistent s -> sessionConsistent (run env events s).
Proof.
  revert s. induction events as [|e events IH]; intros s H; cbn; [exact H|].
  apply IH. now apply step_sessionConsistent.
Qed.

(** X3. In every state the object reaches from its construction: while the
    install child runs the status is [Installing], and as long as the
    status is [Begin] no child has been started. *)
Theorem running_child_means_installing (env : Env) (events : list Event) :
  let s := run env events (construct env) in
  (processState (m_installProcess s) = Running -> m_status s = Installing)
  /\ (m_status s = Begin -> spawned s = []).
Proof.
  destruct (run_sessionConsistent env events (construct env)
              (construct_sessionConsistent env)) as (H1 & H2 & _).
  split; assumption.
Qed.

(** X4. In every run, [onInstallOutput] has read both pipes empty by the time
    the child exits: [onInstallFinished] then finds nothing to report, and
    the exit of the child, whatever its code, adds nothing to the log. *)
Theorem exit_adds_nothing_to_log
  (env : Env) (events : list Event) (exitCode : Z) (exitStatus : ExitStatus) :
  let s := run env events (construct env) in
  remainingOutput (m_installProcess s) = ""
  /\ m_statusDetails (exec (childExits exitCode exitStatus) s)
     = m_statusDetails s.
Proof.
  intros s.
  destruct (run_sessionConsistent env events (construct env)
              (construct_sessionConsistent env)) as (_ & _ & H3 & H4).
  fold s in H3, H4. split.
  - unfold remainingOutput. now rewrite H4, H3.
  - unfold childExits, onInstallFinished, setStatus, readAllStandardOutput,
      readAllStandardError.
    run_member.
    destruct (processState (m_installProcess s)); cbn; [reflexivity|].
    rewrite H3, H4.
    destruct (isSuccess exitCode exitStatus); cbn;
      [destruct (Status_eqb (m_status s) Succeeded)
      |destruct (Status_eqb (m_status s) Error)]; reflexivity.
Qed.

Lemma append_assoc_string (a b c : string) : (a ++ b) ++ c = a ++ b ++ c.
Proof.
  induction a as [|x a IH]; cbn; [reflexivity|]. now rewrite IH.
Qed.

Lemma childWrites_log (toError : bool) (data : string) (s : DebInstaller) :
  processState (m_installProcess s) = Running ->
  stdoutBuffer (m_installProcess s) = "" ->
  stderrBuffer (m_installProcess s) = "" ->
  let s' := exec (childWrites toError data) s in
  m_statusDetails s' = m_statusDetails s ++ data
  /\ m_installProcess s' = m_installProcess s.
Proof.
  intros Hp H3 H4.
  unfold childWrites, onInstallOutput, readAllStandardOutput,
    readAllStandardError.
  run_member. rewrite Hp, H3, H4. cbn.
  destruct (m_installProcess s) as [st o e]. cbn in *. subst.
  destruct toError, data; cbn; rewrite ?append_empty_r; split; reflexivity.
Qed.

Lemma writes_log (env : Env) (chunks : list Chunk) (s : DebInstaller) :
  processState (m_installProcess s) = Running ->
  stdoutBuffer (m_installProcess s) = "" ->
  stderrBuffer (m_installProcess s) = "" ->
  m_statusDetails (run env (map chunkEvent chunks) s)
  = m_statusDetails s ++ concatChunks chunks.
Proof.
  revert s. induction chunks as [|[toError data] chunks IH];
    intros s Hp H3 H4; cbn [map run concatChunks].
  - now rewrite append_empty_r.
  - destruct (childWrites_log toError data s Hp H3 H4) as [Hd Hq].
    assert (Hstep : exec (step env (chunkEvent (toError, data))) s
                    = exec (childWrites toError data) s)
      by (destruct toError; reflexivity).
    rewrite Hstep, IH; rewrite ?Hq; auto.
    rewrite Hd. cbn [snd]. apply append_assoc_string.
Qed.

Lemma install_starts (s : DebInstaller) :
  m_isValid s = true ->
  m_canInstall s = true ->
  stdoutBuffer (m_installProcess s) = "" ->
  stderrBuffer (m_installProcess s) = "" ->
  let s' := exec install s in
  m_installProcess s' = mkQProcess Running "" ""
  /\ m_statusDetails s' = ""
  /\ m_status s' = Installing
  /\ m_isInstalled s' = m_isInstalled s.
Proof.
  intros Hv Hc H3 H4. unfold install, setStatus, processStart. run_member.
  rewrite Hv, Hc. cbn.
  destruct (Status_eqb (m_status s) Installing) eqn:E; cbn;
    destruct (m_installProcess s) as [[|] o e] eqn:Hp; cbn in *; subst;
    repeat split; auto;
    destruct (m_status s); try discriminate E; reflexivity.
Qed.

(** X5. The log of a session is what the child wrote, in the order in which it
    arrived, the two pipes merged: from any reachable state where the
    archive is valid and admissible, [install()] followed by any sequence
    of writes of the child leaves exactly their concatenation in the
    log. *)
Theorem log_is_child_output
  (env : Env) (events : list Event) (chunks : list Chunk) :
  let s := run env events (construct env) in
  m_isValid s = true ->
  m_canInstall s = true ->
  m_statusDetails (run env (CallInstall :: map chunkEvent chunks) s)
  = concatChunks chunks.
Proof.
  intros s Hv Hc.
  destruct (run_sessionConsistent env events (construct env)
              (construct_sessionConsistent env)) as (_ & _ & H3 & H4).
  fold s in H3, H4.
  destruct (install_starts s Hv Hc H3 H4) as (Hp & Hd & _).
  cbn [run step].
  rewrite writes_log; rewrite ?Hp; auto.
  now rewrite Hd.
Qed.

Lemma log_is_child_output_witness :
  let s := run (sampleEnv trialOk)
             [CallSetFileName "/tmp/a.deb"; TaskRuns 0; FutureFinished 0]
             (construct (sampleEnv trialOk)) in
  m_isValid s = true
  /\ m_canInstall s = true
  /\ m_statusDetails
       (run (sampleEnv trialOk)
          (CallInstall
           :: map chunkEvent [(false, "Unpacking"); (true, " warning")]) s)
     = "Unpacking warning".
Proof.
  cbv zeta. split; [reflexivity|]. split; [reflexivity|].
  apply (log_is_child_output (sampleEnv trialOk)
           [CallSetFileName "/tmp/a.deb"; TaskRuns 0; FutureFinished 0]
           [(false, "Unpacking"); (true, " warning")]); reflexivity.
Defined.

(** X6. One complete session: from any reachable state where the archive is
    valid and admissible, [install()] followed by the exit of the child
    ends in [Succeeded] with [isInstalled] true when the child exits
    normally with code 0, and in [Error] with [isInstalled] unchanged
    otherwise; either way no child is left running. *)
Theorem install_then_exit
  (env : Env) (events : list Event) (exitCode : Z) (exitStatus : ExitStatus) :
  let s := run env events (construct env) in
  m_isValid s = true ->
  m_canInstall s = true ->
  let s' := run env [CallInstall; ChildExits exitCode exitStatus] s in
  processState (m_installProcess s') = NotRunning
  /\ m_status s'
     = (if isSuccess exitCode exitStatus then Succeeded else Error)
  /\ m_isInstalled s'
     = (if isSuccess exitCode exitStatus then true else m_isInstalled s).
Proof.
  intros s Hv Hc.
  destruct (run_sessionConsistent env events (construct env)
              (construct_sessionConsistent env)) as (_ & _ & H3 & H4).
  fold s in H3, H4.
  destruct (install_starts s Hv Hc H3 H4) as (Hp & Hd & Hst & Hi).
  cbn [run step]. set (s1 := exec install s) in *.
  unfold childExits, onInstallFinished, setStatus, readAllStandardOutput,
    readAllStandardError.
  run_member. rewrite Hp. cbn.
  destruct (isSuccess exitCode exitStatus); cbn; rewrite Hst; cbn;
    repeat split; auto.
Qed.

Lemma install_then_exit_witness :
  let s := run (sampleEnv trialOk)
             [CallSetFileName "/tmp/a.deb"; TaskRuns 0; FutureFinished 0]
             (construct (sampleEnv trialOk)) in
  m_isValid s = true
  /\ m_canInstall s = true
  /\ m_status (run (sampleEnv trialOk) [CallInstall; ChildExits 2 NormalExit] s)
     = Error.
Proof.
  cbv zeta. split; [reflexivity|]. split; [reflexivity|].
  apply (install_then_exit (sampleEnv trialOk)
           [CallSetFileName "/tmp/a.deb"; TaskRuns 0; FutureFinished 0]
           2 NormalExit); reflexivity.
Defined.

(** *** Validity and the package name *)

Lemma dependencyTask_validityKept (env : Env) (s : DebInstaller) :
  validityKept s (snd (dependencyTask env s)).
Proof.
  unfold validityKept, dependencyTask, checkDependencies, checkConflicts,
    checkBreaksSystem.
  run_member. split_tests; repeat split.
Qed.

Lemma step_validityKept (env : Env) (e : Event) (s : DebInstaller) :
  (forall fileName, e <> CallSetFileName fileName) ->
  validityKept s (exec (step env e) s).
Proof.
  intros Hne. destruct e; cbn [step].
  - now destruct (Hne fileName).
  - destruct (install_selectionKept s) as (H1 & _ & _ & H2 & H3 & _).
    repeat split; assumption.
  - unfold taskRuns. run_member.
    destruct (nth_error (futures s) future) as [[r|]|]; cbn;
      try (repeat split; reflexivity).
    pose proof (dependencyTask_validityKept env s) as Hd.
    destruct (dependencyTask env s) as [r s1]. exact Hd.
  - unfold validityKept, futureFinished, dependencyFinished. run_member.
    split_tests; repeat split.
  - destruct (childWrites_selectionKept false data s)
      as (H1 & _ & _ & H2 & H3 & _).
    repeat split; assumption.
  - destruct (childWrites_selectionKept true data s)
      as (H1 & _ & _ & H2 & H3 & _).
    repeat split; assumption.
  - destruct (childExits_selectionKept exitCode exitStatus s)
      as (H1 & _ & _ & H2 & H3 & _).
    repeat split; assumption.
Qed.

Lemma parseDebFile_valid_name (env : Env) (s : DebInstaller) :
  fst (parseDebFile env s) = true ->
  QStr.isEmpty (m_packageName (snd (parseDebFile env s))) = false.
Proof.
  unfold parseDebFile. run_member.
  rewrite runDpkgCommand_eq. cbn.
  destruct (fst (helperResult _ _)); cbn; [|discriminate].
  rewrite !extractControlField_eq. cbn.
  rewrite fieldValue_indexOf. cbn.
  rewrite extractControlField_eq. cbn.
  split_tests; intros H; now apply negb_true_iff in H.
Qed.

Lemma setFileName_validHasName
  (env : Env) (fileName : string) (s : DebInstaller) :
  validHasName s -> validHasName (exec (setFileName env fileName) s).
Proof.
  intros H. unfold setFileName. run_member.
  destruct (QStr.isEmpty fileName || (m_fileName s =? fileName)%string);
    cbn; [exact H|].
  destruct (negb _); cbn; [exact H|].
  match goal with
  | |- context [parseDebFile env ?s0] =>
      pose proof (parseDebFile_valid_name env s0) as Hp;
      destruct (parseDebFile env s0) as [valid s1]
  end.
  cbn in Hp |- *. destruct valid; cbn; [|intros E; discriminate E].
  match goal with
  | |- context [updatePackageInfo env ?s0] =>
      pose proof (updatePackageInfo_untouched env s0)
        as (_ & _ & Hn & _);
      destruct (updatePackageInfo env s0) as [u s2]
  end.
  cbn in Hn |- *. unfold validHasName. cbn. intros _.
  rewrite Hn. now apply Hp.
Qed.

Lemma step_validHasName (env : Env) (e : Event) (s : DebInstaller) :
  validHasName s -> validHasName (exec (step env e) s).
Proof.
  intros H. destruct e;
    try (match goal with
         | |- validHasName (exec (step env ?ev) s) =>
             assert (Hne : forall f, ev <> CallSetFileName f)
               by (intros f E; discriminate E);
             destruct (step_validityKept env ev s Hne) as (Hv & Hn & _)
         end;
         unfold validHasName; rewrite Hv, Hn; exact H).
  now apply setFileName_validHasName.
Qed.

Lemma construct_members (env : Env) :
  m_isValid (construct env) = false
  /\ m_aptInitialized (construct env) = pkgInitConfig env && cacheOpen env.
Proof.
  unfold construct, initializeApt. run_member.
  destruct (pkgInitConfig env), (cacheOpen env); cbn; split; reflexivity.
Qed.

(** X7. In every state the object reaches from its construction, an archive
    reported valid has a non-empty package name. *)
Theorem valid_archive_has_name (env : Env) (events : list Event) :
  let s := run env events (construct env) in
  m_isValid s = true -> QStr.isEmpty (m_packageName s) = false.
Proof.
  cbv zeta.
  assert (H0 : validHasName (construct env)).
  { intros E. rewrite (proj1 (construct_members env)) in E. discriminate E. }
  revert H0. generalize (construct env) as s.
  induction events as [|e events IH]; intros s H; cbn; [exact H|].
  apply IH. now apply step_validHasName.
Qed.

Lemma valid_archive_has_name_witness :
  m_isValid selectedA = true
  /\ QStr.isEmpty (m_packageName selectedA) = false.
Proof.
  split; [reflexivity|].
  apply (valid_archive_has_name (sampleEnv trialOk)
           [CallSetFileName "/tmp/a.deb"]).
  reflexivity.
Defined.

(** X8. APT is initialised once, by the constructor: whatever is called or
    arrives later, [m_aptInitialized] keeps the outcome of that attempt, the
    configuration and the cache both having opened.  A failed
    initialisation is never tried again. *)
Theorem apt_initialised_once (env : Env) (events : list Event) :
  m_aptInitialized (run env events (construct env))
  = pkgInitConfig env && cacheOpen env.
Proof.
  rewrite <- (proj2 (construct_members env)).
  generalize (construct env) as s.
  induction events as [|e events IH]; intros s; cbn; [reflexivity|].
  rewrite IH. destruct e;
    try (match goal with
         | |- m_aptInitialized (exec (step env ?ev) s) = _ =>
             assert (Hne : forall f, ev <> CallSetFileName f)
               by (intros f E; discriminate E);
             destruct (step_validityKept env ev s Hne) as (_ & _ & Ha)
         end;
         exact Ha).
  destruct (setFileName_sessionKept env fileName s) as (_ & _ & _ & _ & _ & Ha).
  exact Ha.
Qed.

(** *** More on selecting an archive *)

Lemma parseDebFile_admissibility (env : Env) (s : DebInstaller) :
  m_canInstall (snd (parseDebFile env s)) = m_canInstall s
  /\ m_preInstallMessage (snd (parseDebFile env s)) = m_preInstallMessage s
  /\ emitted (snd (parseDebFile env s)) = emitted s.
Proof.
  unfold parseDebFile. run_member.
  rewrite runDpkgCommand_eq. cbn.
  destruct (fst (helperResult _ _)); cbn; [|repeat split; reflexivity].
  rewrite !extractControlField_eq. cbn.
  split_tests; repeat split; reflexivity.
Qed.

Lemma updatePackageInfo_admissibility (env : Env) (s : DebInstaller) :
  m_canInstall (snd (updatePackageInfo env s)) = m_canInstall s
  /\ m_preInstallMessage (snd (updatePackageInfo env s)) = m_preInstallMessage s
  /\ m_isValid (snd (updatePackageInfo env s)) = m_isValid s.
Proof.
  unfold updatePackageInfo, notInstalled. run_member.
  split_tests; repeat split.
Qed.

(** X9. Every selection that passes the two guards of [setFileName] (a new,
    non-empty argument of the package MIME type) leaves [canInstall] false,
    so that [install()] does nothing until the result of a check is
    delivered; the message is empty when the archive is valid and says
    that the package is invalid or corrupted when it is not. *)
Theorem setFileName_resets_admissibility
  (env : Env) (s : DebInstaller) (fileName : string) :
  QStr.isEmpty fileName || (m_fileName s =? fileName)%string = false ->
  mimeTypeForFile env
    (absoluteFilePath env (QStr.remove "file://" fileName))
  = debianMimeType ->
  let s' := exec (setFileName env fileName) s in
  m_canInstall s' = false
  /\ exec install s' = s'
  /\ m_preInstallMessage s'
     = (if m_isValid s' then "" else "Error: Invalid or corrupted package").
Proof.
  intros Hg Hmime s'.
  assert (H : m_canInstall s' = false
              /\ m_preInstallMessage s'
                 = (if m_isValid s' then ""
                    else "Error: Invalid or corrupted package")).
  { subst s'. unfold setFileName. run_member.
    rewrite Hg. cbn. rewrite Hmime. cbn.
    match goal with
    | |- context [parseDebFile env ?s0] =>
        pose proof (parseDebFile_admissibility env s0) as (Hc & Hm & _);
        destruct (parseDebFile env s0) as [valid s1]
    end.
    cbn in Hc, Hm |- *. destruct valid; cbn; [|split; [exact Hc|reflexivity]].
    match goal with
    | |- context [updatePackageInfo env ?s0] =>
        pose proof (updatePackageInfo_admissibility env s0) as (Hc' & Hm' & Hv');
        destruct (updatePackageInfo env s0) as [u s2]
    end.
    cbn in Hc', Hm', Hv' |- *. rewrite Hc', Hm', Hv', Hc, Hm. split; reflexivity. }
  destruct H as [Hc Hm]. repeat split; [exact Hc| |exact Hm].
  unfold install. run_member. rewrite Hc.
  destruct (m_isValid s'); reflexivity.
Qed.

Lemma setFileName_resets_admissibility_witness :
  let env := sampleEnv trialOk in
  QStr.isEmpty "/tmp/b.deb" || (m_fileName installingState =? "/tmp/b.deb")%string
  = false
  /\ mimeTypeForFile env
       (absoluteFilePath env (QStr.remove "file://" "/tmp/b.deb"))
     = debianMimeType
  /\ m_canInstall installingState = true
  /\ m_canInstall (exec (setFileName env "/tmp/b.deb") installingState) = false.
Proof.
  cbv zeta. split; [reflexivity|]. split; [reflexivity|]. split; [reflexivity|].
  apply (setFileName_resets_admissibility (sampleEnv trialOk) installingState
           "/tmp/b.deb"); reflexivity.
Defined.

(** X10. An accepted path whose first extraction command fails becomes the
    selected file all the same: [valid] and [canInstall] are false and the
    message says so, but the package name, version and installed size of
    the archive selected before stay exposed; one command was run, nothing
    was queued, and three signals were emitted. *)
Theorem setFileName_extraction_fails
  (env : Env) (s : DebInstaller) (fileName : string) :
  let path := absoluteFilePath env (QStr.remove "file://" fileName) in
  QStr.isEmpty fileName || (m_fileName s =? fileName)%string = false ->
  mimeTypeForFile env path = debianMimeType ->
  (forall out,
      dpkg env (List.length (dpkgRuns s)) ["-I"; path] <> Finished out 0) ->
  let s' := exec (setFileName env fileName) s in
  m_fileName s' = path
  /\ m_isValid s' = false
  /\ m_canInstall s' = false
  /\ m_preInstallMessage s' = "Error: Invalid or corrupted package"
  /\ m_packageName s' = m_packageName s
  /\ m_version s' = m_version s
  /\ m_installedSize s' = m_installedSize s
  /\ dpkgRuns s' = (dpkgRuns s ++ [["-I"; path]])%list
  /\ futures s' = futures s
  /\ m_dependencyWatcher s' = m_dependencyWatcher s
  /\ emitted s'
     = (emitted s ++ [isValidChanged; preInstallMessageChanged;
                      fileNameChanged])%list.
Proof.
  intros path Hg Hmime Hfail s'. subst s'.
  unfold setFileName. run_member.
  rewrite Hg. cbn. fold path. rewrite Hmime. cbn.
  unfold parseDebFile. run_member.
  rewrite runDpkgCommand_eq. cbn.
  assert (Hr : fst (helperResult
                      (dpkg env (List.length (dpkgRuns s)) ["-I"; path]) "")
               = false).
  { destruct (dpkg env (List.length (dpkgRuns s)) ["-I"; path])
      as [out code|] eqn:E; cbn; [|reflexivity].
    destruct (Z.eqb_spec code 0) as [->|Hc]; [|reflexivity].
    now destruct (Hfail out). }
  rewrite Hr. cbn. rewrite <- !app_assoc. cbn. repeat split.
Qed.

Lemma setFileName_extraction_fails_witness :
  QStr.isEmpty "/tmp/c.deb" || (m_fileName selectedA =? "/tmp/c.deb")%string
  = false
  /\ m_fileName (exec (setFileName stalledEnv "/tmp/c.deb") selectedA)
     = "/tmp/c.deb"
  /\ m_packageName (exec (setFileName stalledEnv "/tmp/c.deb") selectedA)
     = "foo".
Proof.
  assert (Hg : QStr.isEmpty "/tmp/c.deb"
               || (m_fileName selectedA =? "/tmp/c.deb")%string = false)
    by reflexivity.
  assert (Hm : mimeTypeForFile stalledEnv
                 (absoluteFilePath stalledEnv
                    (QStr.remove "file://" "/tmp/c.deb"))
               = debianMimeType) by reflexivity.
  assert (Hf : forall out,
             dpkg stalledEnv (List.length (dpkgRuns selectedA))
               ["-I"; absoluteFilePath stalledEnv
                        (QStr.remove "file://" "/tmp/c.deb")]
             <> Finished out 0) by (intros out E; discriminate E).
  split; [exact Hg|].
  destruct (setFileName_extraction_fails stalledEnv selectedA "/tmp/c.deb"
              Hg Hm Hf) as (H1 & _ & _ & _ & H5 & _).
  split; [exact H1|]. rewrite H5. reflexivity.
Defined.

(** **** The scheme prefix *)

Lemma startsWith_app (p s : string) : QStr.startsWith p (p ++ s) = true.
Proof.
  induction p as [|a p IH]; cbn; [reflexivity|].
  now rewrite Ascii.eqb_refl, IH.
Qed.

Lemma removeFrom_absent (needle s : string) :
  QStr.contains needle s = false -> QStr.removeFrom needle 0 s = s.
Proof.
  induction s as [|c s IH]; [reflexivity|].
  intros H.
  change (QStr.contains needle (String c s))
    with (QStr.startsWith needle (String c s) || QStr.contains needle s) in H.
  apply orb_false_iff in H as [Hs Hc].
  cbn [QStr.removeFrom]. rewrite Hs, andb_false_r.
  now rewrite (IH Hc).
Qed.

Lemma removeFrom_skip (needle pre s : string) :
  QStr.removeFrom needle (String.length pre) (pre ++ s)
  = QStr.removeFrom needle 0 s.
Proof.
  induction pre as [|a pre IH]; cbn; [reflexivity|]. exact IH.
Qed.

Lemma remove_prefix (needle s : string) :
  QStr.isEmpty needle = false ->
  QStr.remove needle (needle ++ s) = QStr.remove needle s.
Proof.
  intros Hn. unfold QStr.remove.
  destruct needle as [|a n]; [discriminate Hn|].
  change ((String a n) ++ s) with (String a (n ++ s)).
  cbn [QStr.removeFrom].
  change (String a (n ++ s)) with ((String a n) ++ s).
  rewrite startsWith_app. cbn [QStr.isEmpty negb andb String.length Nat.pred].
  apply removeFrom_skip.
Qed.

(** X11. A path that does not contain the scheme is selected as it is, and
    the URL made of the scheme and that path selects the same file: when
    the call passes the guards, the selected file is the absolute form of
    the path. *)
Theorem setFileName_strips_scheme
  (env : Env) (s : DebInstaller) (path : string) :
  QStr.contains "file://" path = false ->
  QStr.remove "file://" path = path
  /\ QStr.remove "file://" ("file://" ++ path) = path
  /\ forall fileName,
      fileName = path \/ fileName = "file://" ++ path ->
      QStr.isEmpty fileName || (m_fileName s =? fileName)%string = false ->
      mimeTypeForFile env (absoluteFilePath env path) = debianMimeType ->
      m_fileName (exec (setFileName env fileName) s)
      = absoluteFilePath env path.
Proof.
  intros Hc.
  assert (H1 : QStr.remove "file://" path = path)
    by (apply removeFrom_absent; exact Hc).
  assert (H2 : QStr.remove "file://" ("file://" ++ path) = path)
    by (rewrite remove_prefix by reflexivity; exact H1).
  repeat split; [exact H1|exact H2|].
  intros fileName Hf Hg Hmime.
  assert (Hr : QStr.remove "file://" fileName = path)
    by (destruct Hf as [-> | ->]; assumption).
  rewrite (setFileName_selects env s fileName Hg); rewrite Hr; auto.
Qed.

Lemma setFileName_strips_scheme_witness :
  QStr.contains "file://" "/tmp/a.deb" = false
  /\ m_fileName
       (exec (setFileName (sampleEnv trialOk) "file:///tmp/a.deb") memberInit)
     = "/tmp/a.deb".
Proof.
  assert (Hc : QStr.contains "file://" "/tmp/a.deb" = false) by reflexivity.
  split; [exact Hc|].
  apply (proj2 (proj2 (setFileName_strips_scheme (sampleEnv trialOk) memberInit
                         "/tmp/a.deb" Hc)) "file:///tmp/a.deb");
    [right; reflexivity|reflexivity|reflexivity].
Defined.

(** *** [updatePackageInfo] *)

(** X12. Without an initialised APT, without a package name or without a
    package cache, [updatePackageInfo] reports the package as not installed
    with no installed version, and returns before any signal is emitted:
    the two members may change without their change signals. *)
Theorem updatePackageInfo_degraded (env : Env) (s : DebInstaller) :
  m_aptInitialized s = false
  \/ QStr.isEmpty (m_packageName s) = true
  \/ pkgCache env = None ->
  let s' := exec (updatePackageInfo env) s in
  m_isInstalled s' = false
  /\ m_installedVersion s' = ""
  /\ emitted s' = emitted s.
Proof.
  intros H. unfold updatePackageInfo, notInstalled. run_member.
  destruct (m_aptInitialized s) eqn:Ea; cbn; [|repeat split].
  destruct (QStr.isEmpty (m_packageName s)) eqn:En; cbn; [repeat split|].
  destruct (pkgCache env) eqn:Ec; cbn; [|repeat split].
  destruct H as [H|[H|H]]; discriminate H.
Qed.

Lemma updatePackageInfo_degraded_witness :
  let s := set_m_isInstalled true memberInit in
  (m_aptInitialized s = false
   \/ QStr.isEmpty (m_packageName s) = true
   \/ pkgCache (sampleEnv trialOk) = None)
  /\ m_isInstalled s = true
  /\ m_isInstalled (exec (updatePackageInfo (sampleEnv trialOk)) s) = false.
Proof.
  cbv zeta.
  assert (H : m_aptInitialized (set_m_isInstalled true memberInit) = false
              \/ QStr.isEmpty (m_packageName (set_m_isInstalled true memberInit))
                 = true
              \/ pkgCache (sampleEnv trialOk) = None) by (left; reflexivity).
  split; [exact H|]. split; [reflexivity|].
  apply (updatePackageInfo_degraded (sampleEnv trialOk)
           (set_m_isInstalled true memberInit) H).
Defined.

(** X13. With APT initialised, a package name and a cache, the package is
    looked up by name: it is installed when it is found in state
    [Installed], its installed version is that of its current version if it
    has one, and the eight change signals are emitted whether it was found
    or not.  Nothing else of the package data is touched. *)
Theorem updatePackageInfo_lookup
  (env : Env) (s : DebInstaller) (findPkg : string -> option Pkg) :
  m_aptInitialized s = true ->
  QStr.isEmpty (m_packageName s) = false ->
  pkgCache env = Some findPkg ->
  let s' := exec (updatePackageInfo env) s in
  m_isInstalled s'
  = match findPkg (m_packageName s) with
    | Some pkg => currentStateInstalled pkg
    | None => false
    end
  /\ m_installedVersion s'
     = match findPkg (m_packageName s) with
       | Some pkg => match currentVer pkg with Some v => v | None => "" end
       | None => ""
       end
  /\ emitted s' = (emitted s ++ packageInfoSignals)%list
  /\ m_packageName s' = m_packageName s
  /\ m_version s' = m_version s
  /\ m_installedSize s' = m_installedSize s.
Proof.
  intros Ha Hn Hc. unfold updatePackageInfo, notInstalled. run_member.
  rewrite Ha, Hn, Hc. cbn.
  destruct (findPkg (m_packageName s)) as [[inst [v|]]|]; cbn;
    rewrite <- !app_assoc; cbn; repeat split.
Qed.

Lemma updatePackageInfo_lookup_witness :
  let env := sampleEnv trialOk in
  let s := set_m_packageName "foo" (construct env) in
  m_aptInitialized s = true
  /\ QStr.isEmpty (m_packageName s) = false
  /\ pkgCache env = Some (fun _ => None)
  /\ m_isInstalled (exec (updatePackageInfo env) s) = false.
Proof.
  cbv zeta. split; [reflexivity|]. split; [reflexivity|]. split; [reflexivity|].
  apply (updatePackageInfo_lookup (sampleEnv trialOk)
           (set_m_packageName "foo" (construct (sampleEnv trialOk)))
           (fun _ => None)); reflexivity.
Defined.

(** *** The background check and its delivery *)

Lemma dependencyTask_verdict (env : Env) (s : DebInstaller) :
  let r := fst (dependencyTask env s) in
  let s' := snd (dependencyTask env s) in
  emitted s' = emitted s
  /\ (r = true ->
      m_preInstallMessage s' = m_preInstallMessage s
      /\ dpkgRuns s' = (dpkgRuns s ++ [trialRun s; trialRun s])%list)
  /\ (r = false ->
      (m_preInstallMessage s' = "Error: Unmet dependencies"
       /\ dpkgRuns s' = (dpkgRuns s ++ [trialRun s])%list)
      \/ (m_preInstallMessage s' = "Error: Package conflicts"
          /\ dpkgRuns s' = (dpkgRuns s ++ [trialRun s; trialRun s])%list)).
Proof.
  unfold dependencyTask, checkDependencies, checkConflicts, checkBreaksSystem,
    trialRun.
  run_member. rewrite runDpkgCommand_eq. cbn.
  destruct (fst (helperResult _ _)); cbn.
  - rewrite runDpkgCommand_eq. cbn.
    destruct (fst (helperResult _ _)); cbn;
      [|destruct (QStr.containsCI "conflict" _); cbn];
      rewrite <- ?app_assoc; cbn;
      repeat split; auto; try discriminate.
    all: try (intros _; right; split; reflexivity).
  - destruct (QStr.containsCI "depends" _ || QStr.containsCI "dependency" _);
      cbn.
    + repeat split; auto; try discriminate;
        try (intros _; left; split; reflexivity).
    + rewrite runDpkgCommand_eq. cbn.
      destruct (fst (helperResult _ _)); cbn;
        [|destruct (QStr.containsCI "conflict" _); cbn];
        rewrite <- ?app_assoc; cbn;
        repeat split; auto; try discriminate.
      all: try (intros _; right; split; reflexivity).
Qed.

(** X14. The background check runs the trial install once or twice and emits
    nothing.  When it passes it leaves the message alone, after two trial
    runs.  When it fails it has set the message: to unmet dependencies
    after a single run (the conflict check is then skipped), or to package
    conflicts after two. *)
Theorem dependencyTask_outcome (env : Env) (s : DebInstaller) :
  let r := fst (dependencyTask env s) in
  let s' := snd (dependencyTask env s) in
  emitted s' = emitted s
  /\ (if r
      then m_preInstallMessage s' = m_preInstallMessage s
           /\ dpkgRuns s' = (dpkgRuns s ++ [trialRun s; trialRun s])%list
      else (m_preInstallMessage s' = "Error: Unmet dependencies"
            /\ dpkgRuns s' = (dpkgRuns s ++ [trialRun s])%list)
           \/ (m_preInstallMessage s' = "Error: Package conflicts"
               /\ dpkgRuns s' = (dpkgRuns s ++ [trialRun s; trialRun s])%list)).
Proof.
  intros r s'.
  destruct (dependencyTask_verdict env s) as (He & Ht & Hf).
  fold r s' in He, Ht, Hf. split; [exact He|].
  destruct r; [apply Ht|apply Hf]; reflexivity.
Qed.

(** X15. When the completion of the watched check is delivered, [canInstall]
    becomes its result and both signals are emitted.  A message already
    there is never replaced, not even by a positive result, which leaves
    the message as it is; after a negative result the message is not
    empty. *)
Theorem futureFinished_delivery
  (s : DebInstaller) (future : nat) (result : bool) :
  m_dependencyWatcher s = Some future ->
  nth_error (futures s) future = Some (Some result) ->
  let s' := exec (futureFinished future) s in
  m_canInstall s' = result
  /\ (m_preInstallMessage s <> "" \/ result = true ->
      m_preInstallMessage s' = m_preInstallMessage s)
  /\ (result = false -> m_preInstallMessage s' <> "")
  /\ emitted s'
     = (emitted s ++ [canInstallChanged; preInstallMessageChanged])%list.
Proof.
  intros Hw Hr. unfold futureFinished, dependencyFinished. run_member.
  rewrite Hw, Nat.eqb_refl, Hr. cbn.
  destruct result; cbn.
  - rewrite <- !app_assoc. cbn. repeat split; auto. discriminate.
  - destruct (m_preInstallMessage s) eqn:Em; cbn;
      rewrite <- !app_assoc; cbn; repeat split; auto; try discriminate;
      try (intros [H|H]; [now destruct H|discriminate H]);
      try (intros _; rewrite Em; discriminate).
Qed.

Lemma futureFinished_delivery_witness :
  let s := run (sampleEnv trialUnmetB)
             [CallSetFileName "/tmp/b.deb"; TaskRuns 0]
             (construct (sampleEnv trialUnmetB)) in
  m_dependencyWatcher s = Some 0%nat
  /\ nth_error (futures s) 0 = Some (Some false)
  /\ m_preInstallMessage (exec (futureFinished 0) s)
     = "Error: Unmet dependencies".
Proof.
  cbv zeta. split; [reflexivity|]. split; [reflexivity|].
  rewrite (proj1 (proj2 (futureFinished_delivery
                           (run (sampleEnv trialUnmetB)
                              [CallSetFileName "/tmp/b.deb"; TaskRuns 0]
                              (construct (sampleEnv trialUnmetB)))
                           0 false eq_refl eq_refl)));
    [reflexivity|left; intros E; vm_compute in E; discriminate E].
Defined.

(** *** The fallback message *)

Lemma nth_error_setNth {A : Type} (n m : nat) (a : A) (l : list A) :
  nth_error (setNth n a l) m
  = if Nat.eqb n m
    then match nth_error l m with Some _ => Some a | None => None end
    else nth_error l m.
Proof.
  revert n m. induction l as [|x l IH]; intros [|n] [|m]; cbn; auto;
    try (now destruct (Nat.eqb n m)).
Qed.

Lemma kept_verdictExplained (s s' : DebInstaller) :
  untouched s s' -> selectionKept s s' ->
  verdictExplained s -> verdictExplained s'.
Proof.
  unfold untouched, selectionKept, verdictExplained.
  intros (Hw & Hf & _) (_ & _ & Hm & _) [H1 H2].
  rewrite Hw, Hf, Hm. split; assumption.
Qed.

Lemma taskRuns_verdictExplained (env : Env) (future : nat) (s : DebInstaller) :
  verdictExplained s -> verdictExplained (exec (taskRuns env future) s).
Proof.
  intros [H1 H2]. unfold taskRuns. run_member.
  destruct (nth_error (futures s) future) as [[r0|]|] eqn:En; cbn;
    try (split; assumption).
  pose proof (dependencyTask_untouched env s) as (Hw & Hf & _).
  pose proof (dependencyTask_verdict env s) as (_ & Ht & Hfalse).
  destruct (dependencyTask env s) as [r s1]. cbn in Hw, Hf, Ht, Hfalse |- *.
  unfold verdictExplained. cbn. rewrite Hw, Hf. split.
  - intros w Hww Hn. rewrite nth_error_setNth in Hn.
    destruct r.
    + destruct (Nat.eqb future w) eqn:E.
      * destruct (nth_error (futures s) w); discriminate Hn.
      * rewrite (proj1 (Ht eq_refl)). now apply (H1 w).
    + destruct (Hfalse eq_refl) as [[Hm _]|[Hm _]]; rewrite Hm; discriminate.
  - destruct r.
    + rewrite (proj1 (Ht eq_refl)). exact H2.
    + destruct (Hfalse eq_refl) as [[Hm _]|[Hm _]]; rewrite Hm; discriminate.
Qed.

Lemma futureFinished_verdictExplained (future : nat) (s : DebInstaller) :
  verdictExplained s -> verdictExplained (exec (futureFinished future) s).
Proof.
  intros [H1 H2].
  pose proof (futureFinished_untouched future s) as (Hw & Hf & _).
  assert (Hm : m_preInstallMessage (exec (futureFinished future) s)
               = m_preInstallMessage s).
  { unfold futureFinished, dependencyFinished. run_member.
    destruct (m_dependencyWatcher s) as [w|] eqn:Ew; cbn; [|reflexivity].
    destruct (Nat.eqb_spec w future) as [->|Hne]; cbn; [|reflexivity].
    destruct (nth_error (futures s) future) as [[[|]|]|] eqn:En; cbn;
      try reflexivity.
    pose proof (H1 future eq_refl En) as Hnon.
    destruct (m_preInstallMessage s) eqn:Em;
      [now destruct Hnon|cbn; exact Em]. }
  unfold verdictExplained. rewrite Hw, Hf, Hm. split; assumption.
Qed.

Lemma setFileName_verdictExplained
  (env : Env) (fileName : string) (s : DebInstaller) :
  verdictExplained s -> verdictExplained (exec (setFileName env fileName) s).
Proof.
  intros [H1 H2]. unfold setFileName. run_member.
  destruct (QStr.isEmpty fileName || (m_fileName s =? fileName)%string);
    cbn; [split; assumption|].
  destruct (negb _); cbn;
    [unfold verdictExplained; cbn; split; [intros; discriminate|discriminate]|].
  match goal with
  | |- context [parseDebFile env ?s0] =>
      pose proof (parseDebFile_watcher env s0) as (Hw & Hf & _);
      pose proof (parseDebFile_admissibility env s0) as (_ & Hm & _);
      destruct (parseDebFile env s0) as [valid s1]
  end.
  cbn in Hw, Hf, Hm |- *. destruct valid; cbn;
    [|unfold verdictExplained; cbn; split; [intros; discriminate|discriminate]].
  match goal with
  | |- context [updatePackageInfo env ?s0] =>
      pose proof (updatePackageInfo_untouched env s0) as (Hw' & Hf' & _);
      pose proof (updatePackageInfo_admissibility env s0) as (_ & Hm' & _);
      destruct (updatePackageInfo env s0) as [u s2]
  end.
  cbn in Hw', Hf', Hm' |- *. unfold verdictExplained. cbn.
  rewrite Hm', Hm. split; [|discriminate].
  intros w E. injection E as <-. rewrite nth_error_app2 by lia.
  rewrite Nat.sub_diag. cbn. discriminate.
Qed.

Lemma step_verdictExplained (env : Env) (e : Event) (s : DebInstaller) :
  verdictExplained s -> verdictExplained (exec (step env e) s).
Proof.
  intros H. destruct e; cbn [step].
  - now apply setFileName_verdictExplained.
  - eapply kept_verdictExplained;
      [apply install_untouched|apply install_selectionKept|exact H].
  - now apply taskRuns_verdictExplained.
  - now apply futureFinished_verdictExplained.
  - eapply kept_verdictExplained;
      [apply childWrites_untouched|apply childWrites_selectionKept|exact H].
  - eapply kept_verdictExplained;
      [apply childWrites_untouched|apply childWrites_selectionKept|exact H].
  - eapply kept_verdictExplained;
      [apply childExits_untouched|apply childExits_selectionKept|exact H].
Qed.

Lemma construct_verdictExplained (env : Env) :
  verdictExplained (construct env).
Proof.
  unfold verdictExplained, construct, initializeApt. run_member.
  destruct (pkgInitConfig env), (cacheOpen env); cbn;
    split; try discriminate; intros w E; discriminate E.
Qed.

(** X16. The completion lambda falls back to its own message only when a
    negative result arrives while the message is still empty.  That never
    happens: a check that fails has set its message before its result
    exists, and nothing empties the message without also replacing the
    watched check.  In no state the object reaches from its construction
    is the message the fallback one. *)
Theorem fallback_message_never_shown (env : Env) (events : list Event) :
  m_preInstallMessage (run env events (construct env)) <> fallbackMessage.
Proof.
  assert (H : verdictExplained (run env events (construct env))).
  { generalize (construct_verdictExplained env).
    generalize (construct env) as s.
    induction events as [|e events IH]; intros s H; cbn; [exact H|].
    apply IH. now apply step_verdictExplained. }
  exact (proj2 H).
Qed.

(** *** What [extractControlField] reads *)

Lemma afterFirst_absent (lit s : string) :
  QStr.contains lit s = false -> QStr.afterFirst lit s = None.
Proof.
  induction s as [|c s IH].
  - cbn. intros H. rewrite orb_false_r in H. now rewrite H.
  - intros H.
    change (QStr.contains lit (String c s))
      with (QStr.startsWith lit (String c s) || QStr.contains lit s) in H.
    apply orb_false_iff in H as [Hs Hc].
    change (QStr.afterFirst lit (String c s))
      with (if QStr.startsWith lit (String c s)
            then Some (QStr.skip (String.length lit) (String c s))
            else QStr.afterFirst lit s).
    rewrite Hs. now apply IH.
Qed.

Lemma isRegexSpace_isSpace (c : ascii) :
  QStr.isRegexSpace c = true -> QStr.isSpace c = true.
Proof.
  unfold QStr.isRegexSpace, QStr.isSpace. intros H.
  apply orb_true_iff in H as [H|H]; rewrite H; cbn;
    [reflexivity|now rewrite orb_true_r].
Qed.

Lemma dropWhile_spaces (ws t : string) :
  allRegexSpace ws = true ->
  (forall c, QStr.first t = Some c -> QStr.isRegexSpace c = false) ->
  QStr.dropWhile QStr.isRegexSpace (ws ++ t) = t.
Proof.
  intros Hws Ht. induction ws as [|c ws IH]; cbn in *.
  - now apply dropWhile_fixed.
  - apply andb_true_iff in Hws as [Hc Hws]. rewrite Hc. now apply IH.
Qed.

Lemma takeWhile_line (value rest : string) :
  QStr.hasChar QStr.newline value = false ->
  QStr.takeWhile QStr.notNewline (value ++ newlineString ++ rest) = value.
Proof.
  induction value as [|c value IH]; intros H.
  - reflexivity.
  - change (QStr.hasChar QStr.newline (String c value))
      with (Ascii.eqb QStr.newline c || QStr.hasChar QStr.newline value) in H.
    apply orb_false_iff in H as [Hc Hv].
    change (QStr.takeWhile QStr.notNewline
              (String c value ++ newlineString ++ rest))
      with (if QStr.notNewline c
            then String c (QStr.takeWhile QStr.notNewline
                             (value ++ newlineString ++ rest))
            else "").
    unfold QStr.notNewline at 1. rewrite Ascii.eqb_sym, Hc.
    change (negb false) with true. cbv iota. now rewrite IH.
Qed.

(** X17. A well-formed answer is read back: when the command exits with code 0
    and the first occurrence of the field name and colon in its output is
    followed by white space, then by a non-empty trimmed value, then by a
    line feed, [extractControlField] returns exactly that value.  The white
    space may hold line feeds: after a field left empty, the value read is
    the next line. *)
Theorem extractControlField_reads_value
  (env : Env) (s : DebInstaller) (fieldName out ws value rest : string) :
  dpkg env (List.length (dpkgRuns s)) ["-I"; m_fileName s; fieldName]
  = Finished out 0 ->
  QStr.afterFirst (fieldName ++ ":") out
  = Some (ws ++ value ++ newlineString ++ rest) ->
  allRegexSpace ws = true ->
  QStr.isEmpty value = false ->
  singleTrimmedLine value ->
  fst (extractControlField env fieldName s) = value.
Proof.
  intros Hd Ha Hws Hne (Hnl & Hfirst & _ & Htrim).
  rewrite extractControlField_eq. cbn. unfold fieldValue.
  rewrite Hd. cbn. unfold QStr.fieldCapture. rewrite Ha.
  rewrite dropWhile_spaces; auto.
  - now rewrite takeWhile_line, Htrim.
  - intros c Hc. destruct value as [|v value]; [discriminate Hne|].
    cbn in Hc. injection Hc as <-.
    destruct (QStr.isRegexSpace v) eqn:E; [|reflexivity].
    apply isRegexSpace_isSpace in E.
    now rewrite (Hfirst v eq_refl) in E.
Qed.

Lemma extractControlField_reads_value_witness :
  let env := sampleEnv trialOk in
  let s := set_m_fileName "/tmp/a.deb" memberInit in
  dpkg env (List.length (dpkgRuns s)) ["-I"; m_fileName s; "Version"]
  = Finished controlA 0
  /\ QStr.afterFirst "Version:" controlA
     = Some (" " ++ "1.2.3" ++ newlineString
             ++ (" Installed-Size: 100" ++ newlineString))
  /\ fst (extractControlField env "Version" s) = "1.2.3".
Proof.
  cbv zeta. split; [reflexivity|]. split; [reflexivity|].
  apply (extractControlField_reads_value (sampleEnv trialOk)
           (set_m_fileName "/tmp/a.deb" memberInit)
           "Version" controlA " " "1.2.3"
           (" Installed-Size: 100" ++ newlineString));
    try reflexivity.
  repeat split; try reflexivity; intros c E; injection E as <-; reflexivity.
Defined.

(** X18. A field that cannot be read is empty: [extractControlField] returns
    the empty string when the command does not exit with code 0 in time,
    whatever it printed, and when its output does not contain the field
    name followed by a colon. *)
Theorem extractControlField_missing
  (env : Env) (s : DebInstaller) (fieldName : string) :
  (forall out,
      dpkg env (List.length (dpkgRuns s)) ["-I"; m_fileName s; fieldName]
      <> Finished out 0)
  \/ (exists out,
        dpkg env (List.length (dpkgRuns s)) ["-I"; m_fileName s; fieldName]
        = Finished out 0
        /\ QStr.contains (fieldName ++ ":") out = false) ->
  fst (extractControlField env fieldName s) = "".
Proof.
  intros H. rewrite extractControlField_eq. cbn. unfold fieldValue.
  destruct H as [H|(out & H & Hc)].
  - destruct (dpkg env _ _) as [out code|]; cbn; [|reflexivity].
    destruct (Z.eqb_spec code 0) as [->|Hne]; [|reflexivity].
    now destruct (H out).
  - rewrite H. cbn. unfold QStr.fieldCapture.
    now rewrite (afterFirst_absent _ _ Hc).
Qed.

Lemma extractControlField_missing_witness :
  let env := sampleEnv trialOk in
  let s := set_m_fileName "/tmp/b.deb" memberInit in
  (exists out,
      dpkg env (List.length (dpkgRuns s)) ["-I"; m_fileName s; "Installed-Size"]
      = Finished out 0
      /\ QStr.contains ("Installed-Size" ++ ":") out = false)
  /\ fst (extractControlField env "Installed-Size" s) = "".
Proof.
  cbv zeta.
  assert (H : exists out,
             dpkg (sampleEnv trialOk)
               (List.length (dpkgRuns (set_m_fileName "/tmp/b.deb" memberInit)))
               ["-I"; m_fileName (set_m_fileName "/tmp/b.deb" memberInit);
                "Installed-Size"]
             = Finished out 0
             /\ QStr.contains ("Installed-Size" ++ ":") out = false)
    by (exists controlB; split; reflexivity).
  split; [exact H|].
  apply (extractControlField_missing (sampleEnv trialOk)
           (set_m_fileName "/tmp/b.deb" memberInit) "Installed-Size").
  right. exact H.
Defined.

(** *** The status *)

Lemma childWrites_status (toError : bool) (data : string) (s : DebInstaller) :
  m_status (exec (childWrites toError data) s) = m_status s.
Proof.
  unfold childWrites, onInstallOutput, readAllStandardOutput,
    readAllStandardError.
  run_member. split_tests; reflexivity.
Qed.

(** X19. In every state the object reaches from its construction, a status
    other than [Installing] is changed by [install()] alone: no selection,
    no check, no output and no exit of a child moves the status away from
    [Begin], [Succeeded] or [Error]. *)
Theorem status_left_only_by_install
  (env : Env) (events : list Event) (e : Event) :
  let s := run env events (construct env) in
  m_status s <> Installing ->
  e <> CallInstall ->
  m_status (exec (step env e) s) = m_status s.
Proof.
  intros s Hst He.
  destruct (run_sessionConsistent env events (construct env)
              (construct_sessionConsistent env)) as (H1 & _).
  fold s in H1. destruct e; cbn [step].
  - apply setFileName_sessionKept.
  - now destruct He.
  - apply taskRuns_sessionKept.
  - apply futureFinished_sessionKept.
  - apply childWrites_status.
  - apply childWrites_status.
  - unfold childExits. run_member.
    destruct (processState (m_installProcess s)) eqn:Hp; cbn; [reflexivity|].
    now destruct (Hst (H1 eq_refl)).
Qed.

Lemma status_left_only_by_install_witness :
  let env := sampleEnv trialOk in
  let s := run env [CallSetFileName "/tmp/a.deb"] (construct env) in
  m_status s <> Installing
  /\ m_status (exec (step env (ChildExits 0 NormalExit)) s) = m_status s.
Proof.
  cbv zeta.
  assert (H : m_status (run (sampleEnv trialOk) [CallSetFileName "/tmp/a.deb"]
                          (construct (sampleEnv trialOk))) <> Installing)
    by (intros E; vm_compute in E; discriminate E).
  split; [exact H|].
  apply (status_left_only_by_install (sampleEnv trialOk)
           [CallSetFileName "/tmp/a.deb"] (ChildExits 0 NormalExit) H).
  intros E. discriminate E.
Defined.

Lemma step_not_begin (env : Env) (e : Event) (s : DebInstaller) :
  m_status s <> Begin -> m_status (exec (step env e) s) <> Begin.
Proof.
  intros H. destruct e; cbn [step].
  - now rewrite (proj1 (setFileName_sessionKept env fileName s)).
  - unfold install, setStatus, processStart. run_member.
    destruct (m_isValid s), (m_canInstall s); cbn; auto.
    destruct (Status_eqb (m_status s) Installing) eqn:E; cbn;
      destruct (processState (m_installProcess s)); cbn; auto; discriminate.
  - now rewrite (proj1 (taskRuns_sessionKept env future s)).
  - now rewrite (proj1 (futureFinished_sessionKept future s)).
  - now rewrite childWrites_status.
  - now rewrite childWrites_status.
  - unfold childExits, onInstallFinished, setStatus, readAllStandardOutput,
      readAllStandardError.
    run_member.
    destruct (processState (m_installProcess s)); cbn; auto.
    destruct (isSuccess exitCode exitStatus); cbn;
      [destruct (Status_eqb (m_status s) Succeeded) eqn:E
      |destruct (Status_eqb (m_status s) Error) eqn:E]; cbn;
      try discriminate;
      split_tests; auto; discriminate.
Qed.

(** X20. [Begin] is the status of an object that has never installed: once the
    status has left [Begin], nothing brings it back, whatever is called or
    arrives. *)
Theorem begin_never_reentered
  (env : Env) (s : DebInstaller) (events : list Event) :
  m_status s <> Begin -> m_status (run env events s) <> Begin.
Proof.
  revert s. induction events as [|e events IH]; intros s H; cbn; [exact H|].
  apply IH. now apply step_not_begin.
Qed.

Lemma begin_never_reentered_witness :
  m_status installingState <> Begin
  /\ m_status
       (run (sampleEnv trialOk)
          [ChildExits 1 NormalExit; CallSetFileName "/tmp/b.deb"]
          installingState)
     <> Begin.
Proof.
  assert (H : m_status installingState <> Begin)
    by (intros E; vm_compute in E; discriminate E).
  split; [exact H|].
  apply (begin_never_reentered (sampleEnv trialOk) installingState
           [ChildExits 1 NormalExit; CallSetFileName "/tmp/b.deb"] H).
Defined.

(** *** Installed sizes in whole KiB *)

Lemma wholeKiB_checked : forallb wholeKiB (seq 1 1023) = true.
Proof. vm_compute. reflexivity. Qed.

(** X21. An installed size given as a whole number of KiB from 1 to 1023 is
    exposed as that number with one decimal and the unit KB: the
    multiplication by 1024.0 and the division by it lose nothing. *)
Theorem installedSize_whole_kib (env : Env) (n : Z) (text previous : string) :
  1 <= n <= 1023 ->
  QStr.isEmpty text = false ->
  toDouble env text = Some (Dbl.ofZ n) ->
  formatByteSize (Dbl.mul (Dbl.ofZ n) (Dbl.ofZ 1024)) 1
  = Dbl.decimal n ++ ".0 KB"
  /\ installedSizeOf env text previous = Dbl.decimal n ++ ".0 KB".
Proof.
  intros Hn Ht Hd.
  assert (H : formatByteSize (Dbl.mul (Dbl.ofZ n) (Dbl.ofZ 1024)) 1
              = Dbl.decimal n ++ ".0 KB").
  { pose proof wholeKiB_checked as Hall.
    rewrite forallb_forall in Hall.
    specialize (Hall (Z.to_nat n)).
    unfold wholeKiB in Hall. rewrite Z2Nat.id in Hall by lia.
    apply String.eqb_eq, Hall, in_seq. lia. }
  split; [exact H|].
  unfold installedSizeOf. now rewrite Ht, Hd.
Qed.

Lemma installedSize_whole_kib_witness :
  1 <= 100 <= 1023
  /\ installedSizeOf (sampleEnv trialOk) "100" "" = "100.0 KB".
Proof.
  split; [lia|].
  apply (installedSize_whole_kib (sampleEnv trialOk) 100 "100" "");
    [lia|reflexivity|reflexivity].
Defined.

(* ================================================================== *)
(** ** The session log, repeated selections and stale checks *)
(* ================================================================== *)

(** C5 fails on the code.  [onInstallFinished] means to append the error
    output behind the [Error:] marker, but [onInstallOutput] has already
    moved it to the log: a child that writes an error line and exits with
    code 2 leaves status [Error] and the line in the log, with no marker. *)
Lemma error_marker_missing_in_failed_session :
  let env := sampleEnv trialOk in
  let s := run env
             [CallSetFileName "/tmp/a.deb"; TaskRuns 0; FutureFinished 0;
              CallInstall; ChildWritesError "dpkg: error processing foo";
              ChildExits 2 NormalExit]
             (construct env) in
  m_status s = Error
  /\ m_isInstalled s = false
  /\ m_statusDetails s = "dpkg: error processing foo"
  /\ QStr.contains "Error:" (m_statusDetails s) = false.
Proof. vm_compute. repeat split. Qed.

(** C8 fails on the code.  The argument is compared with the stored path
    before the scheme is stripped: selecting [file:///tmp/a.deb] a second
    time runs the seven helper commands again, emits the ten signals again
    and queues a second check. *)
Lemma setFileName_url_twice_reprocessed :
  let env := sampleEnv trialOk in
  let s1 := exec (setFileName env "file:///tmp/a.deb") (construct env) in
  let s2 := exec (setFileName env "file:///tmp/a.deb") s1 in
  m_fileName s1 = "/tmp/a.deb"
  /\ m_isValid s1 = true
  /\ List.length (dpkgRuns s1) = 7%nat
  /\ List.length (dpkgRuns s2) = 14%nat
  /\ List.length (emitted s1) = 10%nat
  /\ List.length (emitted s2) = 20%nat
  /\ futures s1 = [None]
  /\ futures s2 = [None; None]
  /\ s2 <> s1.
Proof.
  vm_compute. repeat split.
  intros H. discriminate H.
Qed.

Lemma dependencyTask_canInstall (env : Env) (s : DebInstaller) :
  m_canInstall (snd (dependencyTask env s)) = m_canInstall s.
Proof.
  unfold dependencyTask, checkDependencies, checkConflicts, checkBreaksSystem.
  run_member. split_tests; reflexivity.
Qed.

(** A check that runs changes [canInstall] never, and the message only to
    one of its two errors. *)
Lemma taskRuns_verdict (env : Env) (future : nat) (s : DebInstaller) :
  let s' := exec (taskRuns env future) s in
  m_canInstall s' = m_canInstall s
  /\ (m_preInstallMessage s' = m_preInstallMessage s
      \/ m_preInstallMessage s' = "Error: Unmet dependencies"
      \/ m_preInstallMessage s' = "Error: Package conflicts").
Proof.
  unfold taskRuns. run_member.
  destruct (nth_error (futures s) future) as [[r0|]|]; cbn; auto.
  pose proof (dependencyTask_canInstall env s) as Hc.
  pose proof (dependencyTask_verdict env s) as (_ & Ht & Hf).
  destruct (dependencyTask env s) as [r s1]. cbn in Hc, Ht, Hf |- *.
  split; [exact Hc|].
  destruct r.
  - left. apply (Ht eq_refl).
  - right. destruct (Hf eq_refl) as [[Hm _]|[Hm _]]; auto.
Qed.

(** C2, as stated, fails: B's verdict has been delivered, admissible with
    an empty message; A's check, still queued, then runs (on the selected
    file, which is now B's) and fails on a dependency.  Its completion is
    dropped and [canInstall] stays true, but the message of the verdict is
    now the dependency error. *)
Lemma stale_check_overwrites_message :
  let env := lateUnmetEnv in
  let sB := run env
              [CallSetFileName "/tmp/a.deb"; CallSetFileName "/tmp/b.deb";
               TaskRuns 1; FutureFinished 1]
              (construct env) in
  let s := run env [TaskRuns 0; FutureFinished 0] sB in
  m_fileName sB = "/tmp/b.deb"
  /\ m_dependencyWatcher sB = Some 1%nat
  /\ m_canInstall sB = true
  /\ m_preInstallMessage sB = ""
  /\ futures s = [Some false; Some true]
  /\ m_canInstall s = true
  /\ m_preInstallMessage s = "Error: Unmet dependencies".
Proof. vm_compute. repeat split. Qed.

(** C2, amended. Archive A is selected and its check queued; anything may
    happen in between; then archive B is selected and its check queued.
    From then on, whatever has happened since: the completion of A's check
    reaching the object changes nothing at all, so A's result never becomes
    [canInstall]; while B's check is the watched one its completion makes
    its result the value of [canInstall], and A's completion arriving after
    that leaves the value in place; and A's check itself, when it runs,
    does not change [canInstall].  The message is not protected: a check
    that runs late may set it, but only to the unmet-dependencies or the
    package-conflicts error. *)
Theorem stale_check_result_discarded
  (env : Env) (s0 : DebInstaller) (pathA pathB : string)
  (between : list Event) :
  let sA := exec (setFileName env pathA) s0 in
  let sA' := run env between sA in
  let sB := exec (setFileName env pathB) sA' in
  let checkA := List.length (futures s0) in
  let checkB := List.length (futures sA') in
  List.length (futures sA) = S (List.length (futures s0)) ->
  List.length (futures sB) = S (List.length (futures sA')) ->
  m_dependencyWatcher sB = Some checkB
  /\ forall events,
      let s := run env events sB in
      exec (futureFinished checkA) s = s
      /\ (forall result,
             m_dependencyWatcher s = Some checkB ->
             nth_error (futures s) checkB = Some (Some result) ->
             m_canInstall (exec (futureFinished checkB) s) = result
             /\ m_canInstall
                  (exec (futureFinished checkA)
                     (exec (futureFinished checkB) s))
                = result)
      /\ m_canInstall (exec (taskRuns env checkA) s) = m_canInstall s
      /\ (m_preInstallMessage (exec (taskRuns env checkA) s)
          = m_preInstallMessage s
          \/ m_preInstallMessage (exec (taskRuns env checkA) s)
             = "Error: Unmet dependencies"
          \/ m_preInstallMessage (exec (taskRuns env checkA) s)
             = "Error: Package conflicts").
Proof.
  intros sA sA' sB checkA checkB HA HB.
  destruct (stale_completion_dropped env s0 pathA pathB between HA HB)
    as [Hw Hev].
  split; [exact Hw|].
  intros events s.
  destruct (Hev events) as [Hdrop Hres].
  destruct (taskRuns_verdict env checkA s) as [Hc Hm].
  repeat split; [exact Hdrop|apply Hres; assumption|apply Hres; assumption
                |exact Hc|exact Hm].
Qed.

(** A's check passes in the pool before B is selected, B's check fails on
    a dependency and is delivered, then A's completion arrives:
    [canInstall] stays false. *)
Lemma stale_check_result_discarded_witness :
  let env := sampleEnv trialUnmetB in
  let s0 := construct env in
  let sA := exec (setFileName env "/tmp/a.deb") s0 in
  let sA' := run env [TaskRuns 0] sA in
  let sB := exec (setFileName env "/tmp/b.deb") sA' in
  let s := run env [TaskRuns 1; FutureFinished 1] sB in
  List.length (futures sA) = S (List.length (futures s0))
  /\ List.length (futures sB) = S (List.length (futures sA'))
  /\ futures s = [Some true; Some false]
  /\ m_canInstall s = false
  /\ exec (futureFinished 0) s = s.
Proof.
  cbv zeta.
  assert (HA : List.length
                 (futures (exec (setFileName (sampleEnv trialUnmetB) "/tmp/a.deb")
                             (construct (sampleEnv trialUnmetB))))
               = S (List.length (futures (construct (sampleEnv trialUnmetB)))))
    by reflexivity.
  assert (HB : List.length
                 (futures
                    (exec (setFileName (sampleEnv trialUnmetB) "/tmp/b.deb")
                       (run (sampleEnv trialUnmetB) [TaskRuns 0]
                          (exec (setFileName (sampleEnv trialUnmetB) "/tmp/a.deb")
                             (construct (sampleEnv trialUnmetB))))))
               = S (List.length
                      (futures
                         (run (sampleEnv trialUnmetB) [TaskRuns 0]
                            (exec (setFileName (sampleEnv trialUnmetB) "/tmp/a.deb")
                               (construct (sampleEnv trialUnmetB)))))))
    by reflexivity.
  split; [exact HA|]. split; [exact HB|].
  split; [reflexivity|]. split; [reflexivity|].
  exact (proj1 (proj2 (stale_check_result_discarded (sampleEnv trialUnmetB)
                         (construct (sampleEnv trialUnmetB))
                         "/tmp/a.deb" "/tmp/b.deb" [TaskRuns 0] HA HB)
                  [TaskRuns 1; FutureFinished 1])).
Defined.
